(** * Elasticsearch helpers of the knowledge base

    A shallow embedding of [mmworkbench/components/_elasticsearch_helpers.py]
    and the properties of its index administration and bulk loading
    operations.

    The Python functions are written in a small state-and-exception monad.
    The Elasticsearch client is the one collaborator of the module: every
    method the module calls on it is a request answered by a transport
    function over an arbitrary engine state, so each theorem holds for every
    behaviour of the engine, including a connection error at any request. *)

From Stdlib Require Import ZArith Lia Ascii String.
From stdpp Require Import base strings list gmap.

Set Warnings "-register-all".
Local Open Scope string_scope.
Local Open Scope list_scope.

(** ** Python values *)

(** The values that cross the module's boundary: index mappings, documents,
    per-document results of a bulk request, logging arguments. A dict keeps
    its items in insertion order. *)
Inductive pyval : Type :=
| VNone
| VBool (b : bool)
| VInt (n : Z)
| VStr (s : string)
| VList (l : list pyval)
| VDict (d : list (string * pyval)).

Definition dict : Type := list (string * pyval).

(** The exceptions that can travel through the module.
    [ESConnectionError] is [elasticsearch.ConnectionError], every other
    exception of the engine client is an [ESTransportError] with its status.
    [BulkIndexError] is the exception of [elasticsearch.helpers], with the
    results of the actions that failed.

    Modelled from the spec: [KnowledgeBaseConnectionError] is imported from
    [..exceptions], which is not among the sources. It is the dedicated
    connectivity error, a kind of its own; the source constructs it either
    with no argument ([es_host := None]) or with the keyword [es_host] set
    to the hosts of the client. *)
Inductive exn : Type :=
| IndexError
| ValueError
| KeyError (key : string)
| TypeError
| AttributeError
| ESConnectionError (info : string)
| ESTransportError (status : Z)
| BulkIndexError (errors : list dict)
| KnowledgeBaseConnectionError (es_host : option (option string)).

Inductive outcome (A : Type) : Type :=
| Return (a : A)
| Raise (e : exn).
Arguments Return {A} a.
Arguments Raise {A} e.

(** Truth value testing of the optional string arguments: [None] and the
    empty string are false. *)
Definition truthy (v : option string) : bool :=
  match v with
  | None => false
  | Some s => negb (String.eqb s EmptyString)
  end.

(** [a or b] *)
Definition py_or (a b : option string) : option string :=
  if truthy a then a else b.

(** [d[key]] *)
Fixpoint dict_getitem (d : dict) (key : string) : outcome pyval :=
  match d with
  | [] => Raise (KeyError key)
  | (k, v) :: d' => if String.eqb k key then Return v else dict_getitem d' key
  end.

(** [v[key]] for a string key: only a dict can be subscripted with it. *)
Definition getitem (v : pyval) (key : string) : outcome pyval :=
  match v with
  | VDict d => dict_getitem d key
  | _ => Raise TypeError
  end.

(** [d.popitem()]: removes and returns the item inserted last. *)
Definition popitem (d : dict) : outcome ((string * pyval) * dict) :=
  match last d with
  | Some kv => Return (kv, removelast d)
  | None => Raise (KeyError "popitem(): dictionary is empty")
  end.

(** [v.keys()] *)
Definition keys (v : pyval) : outcome (list string) :=
  match v with
  | VDict d => Return (map fst d)
  | _ => Raise AttributeError
  end.

(** ** String formatting *)

(** [template.format( *args )] for templates whose replacement fields are all
    the automatically numbered [{}], with [str] arguments (each field is
    replaced by the argument itself). Doubled braces are the escapes; a field
    without an argument raises [IndexError], a single brace [ValueError]. *)
Fixpoint str_format (template : string) (args : list string) : outcome string :=
  match template with
  | EmptyString => Return EmptyString
  | String c rest =>
      if Ascii.eqb c "{"%char then
        match rest with
        | String c' rest' =>
            if Ascii.eqb c' "}"%char then
              match args with
              | a :: args' =>
                  match str_format rest' args' with
                  | Return s => Return (a +:+ s)
                  | Raise e => Raise e
                  end
              | [] => Raise IndexError
              end
            else if Ascii.eqb c' "{"%char then
              match str_format rest' args with
              | Return s => Return (String c s)
              | Raise e => Raise e
              end
            else Raise ValueError
        | EmptyString => Raise ValueError
        end
      else if Ascii.eqb c "}"%char then
        match rest with
        | String c' rest' =>
            if Ascii.eqb c' "}"%char then
              match str_format rest' args with
              | Return s => Return (String c s)
              | Raise e => Raise e
              end
            else Raise ValueError
        | EmptyString => Raise ValueError
        end
      else
        match str_format rest args with
        | Return s => Return (String c s)
        | Raise e => Raise e
        end
  end.

(** [template % args] for templates whose conversions are all [%s], the
    arguments already converted with [str]. [%%] is the escape; a missing
    argument or one too many raises [TypeError], an unfinished or another
    conversion [ValueError]. *)
Fixpoint percent_format (template : string) (args : list string) : outcome string :=
  match template with
  | EmptyString =>
      match args with
      | [] => Return EmptyString
      | _ :: _ => Raise TypeError
      end
  | String c rest =>
      if Ascii.eqb c "%"%char then
        match rest with
        | String c' rest' =>
            if Ascii.eqb c' "s"%char then
              match args with
              | a :: args' =>
                  match percent_format rest' args' with
                  | Return s => Return (a +:+ s)
                  | Raise e => Raise e
                  end
              | [] => Raise TypeError
              end
            else if Ascii.eqb c' "%"%char then
              match percent_format rest' args with
              | Return s => Return (String c s)
              | Raise e => Raise e
              end
            else Raise ValueError
        | EmptyString => Raise ValueError
        end
      else
        match percent_format rest args with
        | Return s => Return (String c s)
        | Raise e => Raise e
        end
  end.

(** ** Scoped index names *)

Definition get_scoped_index_name (app_name index_name : string) : outcome string :=
  str_format "{}${}" [app_name; index_name].

(** The separator of a scoped index name. *)
Definition separator : ascii := "$"%char.

(** Whether a name contains the separator. *)
Fixpoint contains_separator (s : string) : bool :=
  match s with
  | EmptyString => false
  | String c s' => if Ascii.eqb c separator then true else contains_separator s'
  end.

(** ** The Elasticsearch client *)

(** [Elasticsearch(hosts, http_auth=...)]: the client remembers what it was
    built with and connects lazily, on its first request. *)
Record Elasticsearch : Type := {
  hosts : option string;
  http_auth : option (option string * option string)
}.

(** [es_client.transport.hosts] *)
Definition transport_hosts (es_client : Elasticsearch) : option string :=
  hosts es_client.

(** The methods of the client that the module calls, with their arguments. *)
Inductive es_request : Type :=
| cluster_health (request_timeout : Z)
| indices_exists (index : string)
| indices_get (index : string)
| indices_exists_template (name : string)
| indices_put_template (name : string) (body : pyval)
| indices_create (index : string) (body : pyval)
| indices_delete (index : string)
| bulk (index doc_type : string) (chunk : list pyval).

(** The outcome of one action of a bulk request, as [streaming_bulk] reads it
    off the answer: [(okay, {action: result})]. *)
Definition bulk_item : Type := bool * dict.

(** What each method returns when it does not raise. *)
Definition es_response (r : es_request) : Type :=
  match r with
  | cluster_health _ => pyval
  | indices_exists _ => bool
  | indices_get _ => pyval
  | indices_exists_template _ => bool
  | indices_put_template _ _ => pyval
  | indices_create _ _ => pyval
  | indices_delete _ => pyval
  | bulk _ _ _ => list bulk_item
  end.

(** The requests that change the engine: everything but the probes and the
    reads. *)
Definition is_mutation (r : es_request) : bool :=
  match r with
  | indices_put_template _ _ | indices_create _ _ | indices_delete _
  | bulk _ _ _ => true
  | _ => false
  end.

Inductive level : Type := DEBUG | INFO | ERROR.

(** What a call does that can be observed from outside, in order: the
    requests it sends with their answers, the records it hands to the logger
    (message and arguments, which the logger merges lazily). *)
Inductive event : Type :=
| Request (es_client : Elasticsearch) (r : es_request) (answer : exn + es_response r)
| Log (lvl : level) (msg : string) (args : list pyval).

Definition is_log (ev : event) : bool :=
  match ev with Log _ _ _ => true | Request _ _ _ => false end.

Definition is_request (ev : event) : bool :=
  match ev with Request _ _ _ => true | Log _ _ _ => false end.

(** The request of an event, if it is one. *)
Definition request_of (ev : event) : option es_request :=
  match ev with Request _ r _ => Some r | Log _ _ _ => None end.

(** The exception a request was answered with, if any. *)
Definition raised_by (ev : event) : option exn :=
  match ev with
  | Request _ _ (inl e) => Some e
  | _ => None
  end.

Definition is_connection_error (e : exn) : bool :=
  match e with ESConnectionError _ => true | _ => false end.

(** Whether the transport raised a connection error at this request. *)
Definition connection_failed (ev : event) : bool :=
  match raised_by ev with
  | Some e => is_connection_error e
  | None => false
  end.

(** The items the engine answered a bulk request with. *)
Definition bulk_items_of (ev : event) : list bulk_item :=
  match ev with
  | Request _ r answer =>
      match r return exn + es_response r -> list bulk_item with
      | bulk _ _ _ => fun a => match a with inr items => items | inl _ => [] end
      | _ => fun _ => []
      end answer
  | Log _ _ _ => []
  end.

(** The documents submitted by a bulk request. *)
Definition bulk_docs_of (ev : event) : list pyval :=
  match request_of ev with
  | Some (bulk _ _ chunk) => chunk
  | _ => []
  end.

(** [docs] cut into consecutive chunks of [chunk_size] documents, the last
    one possibly shorter; no chunk is empty. *)
Fixpoint chunked_fuel (fuel chunk_size : nat) (docs : list pyval) : list (list pyval) :=
  match fuel with
  | O => []
  | S fuel' =>
      match docs with
      | [] => []
      | _ :: _ => take chunk_size docs :: chunked_fuel fuel' chunk_size (drop chunk_size docs)
      end
  end.

Definition chunked (chunk_size : nat) (docs : list pyval) : list (list pyval) :=
  chunked_fuel (length docs) chunk_size docs.

(** An optional string argument as a Python value. *)
Definition opt_str (v : option string) : pyval :=
  match v with
  | None => VNone
  | Some s => VStr s
  end.

(** ** A reference engine

    A small engine in memory, to run the functions of the module on: it keeps
    the mapping of each index, the index templates and the documents it
    accepted, answers a bounded number of requests ([budget], [None] for no
    bound) and refuses the connection afterwards. It accepts a document that
    is a dict and rejects any other one. *)
Record fake_es : Type := {
  budget : option nat;
  indices : gmap string pyval;
  templates : gmap string pyval;
  stored : list (string * string * pyval)
}.

Definition acknowledged : pyval := VDict [("acknowledged", VBool true)].

(** The item that answers one document of a bulk request. *)
Definition fake_bulk_item (doc : pyval) : bulk_item :=
  match doc with
  | VDict d =>
      let id := match dict_getitem d "_id" with
                | Return v => v
                | Raise _ => VStr "generated"
                end in
      (true, [("index", VDict [("_id", id); ("status", VInt 201)])])
  | _ =>
      (false, [("index", VDict [("_id", VStr "generated"); ("status", VInt 400);
                                ("error", VStr "mapper_parsing_exception")])])
  end.

Definition fake_answer (r : es_request) (s : fake_es) : (exn + es_response r) * fake_es :=
  match r return (exn + es_response r) * fake_es with
  | cluster_health _ => (inr (VDict [("status", VStr "green")]), s)
  | indices_exists index => (inr (bool_decide (is_Some (indices s !! index))), s)
  | indices_get index =>
      match indices s !! index with
      | Some mapping => (inr (VDict [(index, VDict [("mappings", mapping)])]), s)
      | None => (inl (ESTransportError 404), s)
      end
  | indices_exists_template name =>
      (inr (bool_decide (is_Some (templates s !! name))), s)
  | indices_put_template name body =>
      (inr acknowledged,
       {| budget := budget s; indices := indices s;
          templates := <[name := body]> (templates s); stored := stored s |})
  | indices_create index body =>
      match indices s !! index with
      | Some _ => (inl (ESTransportError 400), s)
      | None =>
          (inr acknowledged,
           {| budget := budget s; indices := <[index := body]> (indices s);
              templates := templates s; stored := stored s |})
      end
  | indices_delete index =>
      match indices s !! index with
      | Some _ =>
          (inr acknowledged,
           {| budget := budget s; indices := delete index (indices s);
              templates := templates s;
              stored := filter (fun d => d.1.1 <> index) (stored s) |})
      | None => (inl (ESTransportError 404), s)
      end
  | bulk index doc_type chunk =>
      (inr (map fake_bulk_item chunk),
       {| budget := budget s; indices := indices s; templates := templates s;
          stored := stored s ++
                    map (fun doc => (index, doc_type, doc))
                        (filter (fun doc => fst (fake_bulk_item doc) = true) chunk) |})
  end.

Definition fake_transport (es_client : Elasticsearch) (r : es_request) (s : fake_es)
    : (exn + es_response r) * fake_es :=
  match budget s with
  | Some O => (inl (ESConnectionError "Connection refused"), s)
  | Some (Datatypes.S n) =>
      fake_answer r {| budget := Some n; indices := indices s;
                       templates := templates s; stored := stored s |}
  | None => fake_answer r s
  end.

(** An engine with nothing in it that answers [budget] requests. *)
Definition fake_empty (budget : option nat) : fake_es :=
  {| budget := budget; indices := ∅; templates := ∅; stored := [] |}.

(** ** The operations of the module *)

(** A call of one of the five operations, with its arguments. *)
Inductive operation : Type :=
| DoesIndexExist (app_name index_name : string)
    (es_host : option string) (es_client : option Elasticsearch) (connect_timeout : Z)
| GetFieldNames (app_name index_name : string)
    (es_host : option string) (es_client : option Elasticsearch) (connect_timeout : Z)
| CreateIndex (app_name index_name : string) (mapping : pyval)
    (es_host : option string) (es_client : option Elasticsearch) (connect_timeout : Z)
| DeleteIndex (app_name index_name : string)
    (es_host : option string) (es_client : option Elasticsearch) (connect_timeout : Z)
| LoadIndex (app_name index_name : string) (docs : list pyval) (mapping : pyval)
    (doc_type : string)
    (es_host : option string) (es_client : option Elasticsearch) (connect_timeout : Z).

(** The timeout of the health probe of a call. *)
Definition timeout_of (op : operation) : Z :=
  match op with
  | DoesIndexExist _ _ _ _ t | GetFieldNames _ _ _ _ t | CreateIndex _ _ _ _ _ t
  | DeleteIndex _ _ _ _ t | LoadIndex _ _ _ _ _ _ _ t => t
  end.

(** The client and the host arguments of a call. *)
Definition es_client_of (op : operation) : option Elasticsearch :=
  match op with
  | DoesIndexExist _ _ _ c _ | GetFieldNames _ _ _ c _ | CreateIndex _ _ _ _ c _
  | DeleteIndex _ _ _ c _ | LoadIndex _ _ _ _ _ _ c _ => c
  end.

Definition es_host_of (op : operation) : option string :=
  match op with
  | DoesIndexExist _ _ h _ _ | GetFieldNames _ _ h _ _ | CreateIndex _ _ _ h _ _
  | DeleteIndex _ _ h _ _ | LoadIndex _ _ _ _ _ h _ _ => h
  end.

(** The existence check and the field enumeration, as opposed to index
    creation, index deletion and bulk load. *)
Definition is_read (op : operation) : bool :=
  match op with
  | DoesIndexExist _ _ _ _ _ | GetFieldNames _ _ _ _ _ => true
  | _ => false
  end.

(** The requests of a trace, in order. *)
Definition requests_of (t : list event) : list es_request := omap request_of t.

(** The log records of a trace, in order. *)
Definition logs_of (t : list event) : list event := List.filter is_log t.

(** Whether the transport raised a connection error at a request of the
    trace. *)
Definition any_connection_failed (t : list event) : bool :=
  existsb connection_failed t.

(** How the environment resolves a parameter of the connection factory read
    word for word: the explicit argument if it is supplied, else the
    environment variable, else absent. *)
Definition resolve_as_stated (arg env : option string) : option string :=
  match arg with
  | Some a => Some a
  | None => env
  end.

(** The same with an empty argument counted as not supplied. *)
Definition resolve_non_empty (arg env : option string) : option string :=
  match arg with
  | Some a => if decide (a = EmptyString) then env else Some a
  | None => env
  end.

(** A value that is present and not the empty string. *)
Definition non_empty (v : option string) : Prop :=
  match v with
  | Some s => s <> EmptyString
  | None => False
  end.

#[global] Instance non_empty_dec (v : option string) : Decision (non_empty v).
Proof. destruct v; simpl; apply _. Defined.

Definition is_bulk (r : es_request) : bool :=
  match r with
  | bulk _ _ _ => true
  | _ => false
  end.

(** A per-document result the loop of [load_index] can read: one action with
    a result that has an [_id]. *)
Definition item_well_formed (item : bulk_item) : bool :=
  match popitem (snd item) with
  | Return (_, result, _) =>
      match getitem result "_id" with
      | Return _ => true
      | Raise _ => false
      end
  | Raise _ => false
  end.

(** The answer to a bulk request has one well-formed item for each document
    of the chunk. *)
Definition bulk_answer_well_formed (ev : event) : bool :=
  match request_of ev with
  | Some (bulk _ _ chunk) =>
      (length (bulk_items_of ev) =? length chunk)%nat
      && forallb item_well_formed (bulk_items_of ev)
  | _ => true
  end.

(** The number of items the engine reports as failed. *)
Definition failures (items : list bulk_item) : nat :=
  length (List.filter (fun item => negb (fst item)) items).

(** The items the engine reports as done, and the results of those it
    reports as failed. *)
Definition succeeded (items : list bulk_item) : list bulk_item :=
  List.filter (fun item => fst item) items.

Definition failed_results (items : list bulk_item) : list dict :=
  map snd (List.filter (fun item => negb (fst item)) items).

(** The items the engine answered the bulk requests of a trace with, and the
    documents those requests submitted. *)
Definition answered_items (t : list event) : list bulk_item :=
  concat (map bulk_items_of t).

Definition submitted_docs (t : list event) : list pyval :=
  concat (map bulk_docs_of t).

(** No request of the trace was answered with an exception. *)
Definition all_answered (t : list event) : bool :=
  forallb (fun ev => match raised_by ev with None => true | Some _ => false end) t.

(** Every bulk request of the trace was answered item for document. *)
Definition bulk_answers_well_formed (t : list event) : bool :=
  forallb bulk_answer_well_formed t.

(** The log records of the loop of [load_index], one per document: of a
    failure, or of a success. *)
Definition is_failure_record (ev : event) : bool :=
  match ev with
  | Log ERROR msg _ => String.eqb msg "Failed to %s document %s: %r"
  | _ => false
  end.

Definition is_loaded_record (ev : event) : bool :=
  match ev with
  | Log DEBUG msg _ => String.eqb msg "Loaded document: %s"
  | _ => false
  end.

Definition is_document_record (ev : event) : bool :=
  is_failure_record ev || is_loaded_record ev.

(** An event outside the loop of [load_index]: neither a bulk request nor the
    log record of a document. *)
Definition no_document (ev : event) : bool :=
  negb (is_document_record ev)
  && match request_of ev with
     | Some q => negb (is_bulk q)
     | None => true
     end.

(** No request follows one that raised: what comes after it in the trace is
    log records. *)
Fixpoint stops_at_failure (t : list event) : bool :=
  match t with
  | [] => true
  | ev :: t' =>
      match raised_by ev with
      | Some _ => forallb is_log t'
      | None => stops_at_failure t'
      end
  end.

(** ** Inputs to run the operations on *)

Definition demo_mapping : pyval :=
  VDict [("mappings", VDict [("document", VDict [("properties", VDict [("name", VDict [])])])])].

Definition demo_template : pyval := VDict [("template", VStr "*")].

Definition demo_docs : list pyval :=
  [VDict [("_id", VStr "1")]; VStr "garbage"; VDict [("_id", VStr "3")]].

(** Three documents the reference engine accepts. *)
Definition accepted_docs : list pyval :=
  [VDict [("_id", VStr "1")]; VDict [("_id", VStr "2")]; VDict [("_id", VStr "3")]].

Definition demo_repr (v : pyval) : string :=
  match v with
  | VNone => "None"
  | VStr s => "'" +:+ s +:+ "'"
  | _ => "<object>"
  end.

Definition demo_client : Elasticsearch :=
  {| hosts := Some "localhost:9200"; http_auth := None |}.

(** An engine that holds the index [menu] of the application [food]. *)
Definition fake_with_menu (budget : option nat) : fake_es :=
  {| budget := budget; indices := {[ "food$menu" := demo_mapping ]};
     templates := {[ "default" := demo_template ]}; stored := [] |}.

(** An engine that holds the index [menu] of [food] with two fields. *)
Definition fake_with_fields : fake_es :=
  {| budget := None;
     indices := {[ "food$menu" :=
                   VDict [("document",
                           VDict [("properties",
                                   VDict [("name", VDict [("type", VStr "text")]);
                                          ("price", VDict [("type", VStr "float")])])])] ]};
     templates := ∅; stored := [] |}.

(** An engine that refuses every request for lack of authorization. *)
Definition unauthorized_transport (es_client : Elasticsearch) (r : es_request)
    (s : unit) : (exn + es_response r) * unit :=
  (inl (ESTransportError 401), s).

(** An engine whose bulk results carry a status and nothing else. *)
Definition terse_transport (es_client : Elasticsearch) (r : es_request)
    (s : unit) : (exn + es_response r) * unit :=
  match r return (exn + es_response r) * unit with
  | cluster_health _ => (inr (VDict [("status", VStr "green")]), s)
  | indices_exists _ => (inr true, s)
  | indices_get _ => (inl (ESTransportError 404), s)
  | indices_exists_template _ => (inr true, s)
  | indices_put_template _ _ => (inr acknowledged, s)
  | indices_create _ _ => (inl (ESTransportError 400), s)
  | indices_delete _ => (inr acknowledged, s)
  | bulk _ _ chunk =>
      (inr (map (fun _ => (true, [("index", VDict [("status", VInt 201)])])) chunk), s)
  end.

Create HintDb guard.

Declare Scope py_scope.
Delimit Scope py_scope with py.

Section Helpers.

(** The state of the search engine, and how it answers a request of a
    client: with a value or an exception, and a new state. *)
Context {S : Type}.
Variable transport :
  Elasticsearch -> forall r : es_request, S -> (exn + es_response r) * S.

(** [os.environ] *)
Variable environ : gmap string string.

(** The two constants imported from [._config], which is not among the
    sources. *)
Variable DEFAULT_ES_INDEX_TEMPLATE : pyval.
Variable DEFAULT_ES_INDEX_TEMPLATE_NAME : string.

(** The builtin [repr]. *)
Variable py_repr : pyval -> string.

(** The builtin [str]: a string is itself, the other values are converted
    as [repr] does. *)
Definition py_str (v : pyval) : string :=
  match v with
  | VStr s => s
  | _ => py_repr v
  end.

(** *** The monad of the module's functions *)

Record result (A : Type) : Type := Result {
  out : outcome A;
  engine : S;
  trace : list event
}.
Arguments Result {A} out engine trace.
Arguments out {A} r.
Arguments engine {A} r.
Arguments trace {A} r.

Definition M (A : Type) : Type := S -> result A.

Definition ret {A} (a : A) : M A :=
  fun s => Result (Return a) s [].

Definition raise {A} (e : exn) : M A :=
  fun s => Result (Raise e) s [].

Definition bind {A B} (m : M A) (f : A -> M B) : M B :=
  fun s =>
    let r := m s in
    match out r with
    | Return a =>
        let r' := f a (engine r) in
        Result (out r') (engine r') (trace r ++ trace r')
    | Raise e => Result (Raise e) (engine r) (trace r)
    end.

Notation "x <- m ;; k" := (bind m (fun x => k))
  (at level 100, m at next level, right associativity) : py_scope.
Notation "m ;; k" := (bind m (fun _ => k))
  (at level 100, right associativity) : py_scope.
Local Open Scope py_scope.

(** The value of a pure expression, or the exception it raises. *)
Definition lift {A} (o : outcome A) : M A :=
  match o with
  | Return a => ret a
  | Raise e => raise e
  end.

(** [try: body / except ESConnectionError: handler] *)
Definition try_except_ESConnectionError {A} (body handler : M A) : M A :=
  fun s =>
    let r := body s in
    match out r with
    | Raise (ESConnectionError _) =>
        let r' := handler (engine r) in
        Result (out r') (engine r') (trace r ++ trace r')
    | _ => r
    end.

(** A method call on the client. *)
Definition request (es_client : Elasticsearch) (r : es_request) : M (es_response r) :=
  fun s =>
    let (answer, s') := transport es_client r s in
    Result (match answer with inl e => Raise e | inr v => Return v end)
           s' [Request es_client r answer].

(** [logger.debug], [logger.info], [logger.error] *)
Definition logger (lvl : level) (msg : string) (args : list pyval) : M unit :=
  fun s => Result (Return tt) s [Log lvl msg args].

(** [for x in xs: acc = body(x, acc)] *)
Fixpoint for_in {X A} (xs : list X) (body : X -> A -> M A) (acc : A) : M A :=
  match xs with
  | [] => ret acc
  | x :: xs' => acc' <- body x acc;; for_in xs' body acc'
  end.

(** [streaming_bulk] comes from [elasticsearch.helpers]: a generator that
    reads the documents one chunk at a time and submits each chunk in one
    bulk request. [load_index] calls it with its defaults, so with
    [raise_on_error=True]: of the items of an answer the generator yields to
    the loop those that succeeded, in their order, and keeps back those that
    failed; at the end of a chunk with failures it raises [BulkIndexError]
    with them instead of reading the next chunk. An exception of the
    request, or of the loop body, ends the iteration.

    One chunk: the request, the loop body on each item that succeeded, the
    exception if an item failed. *)
Definition submit_chunk {A} (es_client : Elasticsearch) (index doc_type : string)
    (body : bulk_item -> A -> M A) (chunk : list pyval) (acc : A) : M A :=
  items <- request es_client (bulk index doc_type chunk);;
  acc <- for_in (succeeded items) body acc;;
  match failed_results items with
  | [] => ret acc
  | errors => raise (BulkIndexError errors)
  end.

(** [for item in streaming_bulk(es_client, docs, index=..., doc_type=...,
    chunk_size=...): acc = body(item, acc)] *)
Definition for_streaming_bulk {A} (es_client : Elasticsearch) (docs : list pyval)
    (index doc_type : string) (chunk_size : nat)
    (body : bulk_item -> A -> M A) (acc : A) : M A :=
  for_in (chunked chunk_size docs) (submit_chunk es_client index doc_type body) acc.

(** *** The functions of the module *)

Definition create_es_client (es_host es_user es_pass : option string) : Elasticsearch :=
  let es_host := py_or es_host (environ !! "MM_ES_HOST") in
  let es_user := py_or es_user (environ !! "MM_ES_USERNAME") in
  let es_pass := py_or es_pass (environ !! "MM_ES_PASSWORD") in
  let http_auth :=
    if truthy es_user && truthy es_pass then Some (es_user, es_pass) else None in
  {| hosts := es_host; http_auth := http_auth |}.

(** [es_client or create_es_client(es_host)]: a client object is true. *)
Definition client_or (es_client : option Elasticsearch) (es_host : option string)
    : Elasticsearch :=
  match es_client with
  | Some c => c
  | None => create_es_client es_host None None
  end.

Definition does_index_exist (app_name index_name : string)
    (es_host : option string) (es_client : option Elasticsearch)
    (connect_timeout : Z) : M bool :=
  let es_client := client_or es_client es_host in
  scoped_index_name <- lift (get_scoped_index_name app_name index_name);;
  try_except_ESConnectionError
    (request es_client (cluster_health connect_timeout);;
     request es_client (indices_exists scoped_index_name))
    (logger ERROR "Unable to connect to Elasticsearch cluster at %r" [opt_str es_host];;
     raise (KnowledgeBaseConnectionError None)).

Definition get_field_names (app_name index_name : string)
    (es_host : option string) (es_client : option Elasticsearch)
    (connect_timeout : Z) : M (list string) :=
  let es_client := client_or es_client es_host in
  scoped_index_name <- lift (get_scoped_index_name app_name index_name);;
  try_except_ESConnectionError
    (request es_client (cluster_health connect_timeout);;
     res <- request es_client (indices_get scoped_index_name);;
     of_index <- lift (getitem res scoped_index_name);;
     mappings <- lift (getitem of_index "mappings");;
     document <- lift (getitem mappings "document");;
     all_field_info <- lift (getitem document "properties");;
     lift (keys all_field_info))
    (logger ERROR "Unable to connect to Elasticsearch cluster at %r" [opt_str es_host];;
     raise (KnowledgeBaseConnectionError None)).

Definition create_index (app_name index_name : string) (mapping : pyval)
    (es_host : option string) (es_client : option Elasticsearch)
    (connect_timeout : Z) : M pyval :=
  let es_client := client_or es_client es_host in
  scoped_index_name <- lift (get_scoped_index_name app_name index_name);;
  try_except_ESConnectionError
    (request es_client (cluster_health connect_timeout);;
     exists_ <- request es_client (indices_exists scoped_index_name);;
     (if negb exists_ then
        has_template <- request es_client
                          (indices_exists_template DEFAULT_ES_INDEX_TEMPLATE_NAME);;
        (if negb has_template then
           request es_client
             (indices_put_template DEFAULT_ES_INDEX_TEMPLATE_NAME
                                   DEFAULT_ES_INDEX_TEMPLATE);;
           ret tt
         else ret tt);;
        logger INFO "Creating index %r" [VStr index_name];;
        request es_client (indices_create scoped_index_name mapping);;
        ret tt
      else
        logger ERROR "Index %r already exists." [VStr index_name]);;
     ret VNone)
    (logger ERROR "Unable to connect to Elasticsearch cluster at %r" [opt_str es_host];;
     raise (KnowledgeBaseConnectionError (Some (transport_hosts es_client)))).

Definition delete_index (app_name index_name : string)
    (es_host : option string) (es_client : option Elasticsearch)
    (connect_timeout : Z) : M pyval :=
  let es_client := client_or es_client es_host in
  scoped_index_name <- lift (get_scoped_index_name app_name index_name);;
  try_except_ESConnectionError
    (request es_client (cluster_health connect_timeout);;
     exists_ <- request es_client (indices_exists scoped_index_name);;
     (if exists_ then
        logger INFO "Deleting index %r" [VStr index_name];;
        request es_client (indices_delete scoped_index_name);;
        ret tt
      else ret tt);;
     ret VNone)
    (logger ERROR
       ("Unable to connect to Elasticsearch cluster at " +:+ py_repr (opt_str es_host)) [];;
     raise (KnowledgeBaseConnectionError (Some (transport_hosts es_client)))).

(** The body of the loop of [load_index], for one yielded item and the
    count so far. *)
Definition load_item (index_name doc_type : string) (item : bulk_item) (count : Z)
    : M Z :=
  let '(okay, result) := item in
  popped <- lift (popitem result);;
  let '(action, result, _) := popped in
  id <- lift (getitem result "_id");;
  doc_id <- lift (percent_format "/%s/%s/%s" [index_name; doc_type; py_str id]);;
  if negb okay then
    logger ERROR "Failed to %s document %s: %r" [VStr action; VStr doc_id; result];;
    ret count
  else
    let count := (count + 1)%Z in
    logger DEBUG "Loaded document: %s" [VStr doc_id];;
    ret count.

Definition load_index (app_name index_name : string) (docs : list pyval)
    (mapping : pyval) (doc_type : string)
    (es_host : option string) (es_client : option Elasticsearch)
    (connect_timeout : Z) : M pyval :=
  scoped_index_name <- lift (get_scoped_index_name app_name index_name);;
  let es_client := client_or es_client es_host in
  try_except_ESConnectionError
    (request es_client (cluster_health connect_timeout);;
     exists_ <- request es_client (indices_exists scoped_index_name);;
     (if exists_ then
        logger INFO "Loading index %r" [VStr index_name]
      else
        create_index app_name index_name mapping es_host (Some es_client) 2;;
        ret tt);;
     count <- for_streaming_bulk es_client docs scoped_index_name doc_type 50
                (load_item index_name doc_type) 0%Z;;
     logger INFO "Loaded %s document%s"
       [VInt count; VStr (if (count =? 1)%Z then EmptyString else "s")];;
     ret VNone)
    (logger ERROR
       ("Unable to connect to Elasticsearch cluster at " +:+ py_repr (opt_str es_host)) [];;
     raise (KnowledgeBaseConnectionError (Some (transport_hosts es_client)))).

(** A call of an operation, its value as a Python value. *)
Definition perform (op : operation) : M pyval :=
  match op with
  | DoesIndexExist app_name index_name es_host es_client connect_timeout =>
      b <- does_index_exist app_name index_name es_host es_client connect_timeout;;
      ret (VBool b)
  | GetFieldNames app_name index_name es_host es_client connect_timeout =>
      names <- get_field_names app_name index_name es_host es_client connect_timeout;;
      ret (VList (map VStr names))
  | CreateIndex app_name index_name mapping es_host es_client connect_timeout =>
      create_index app_name index_name mapping es_host es_client connect_timeout
  | DeleteIndex app_name index_name es_host es_client connect_timeout =>
      delete_index app_name index_name es_host es_client connect_timeout
  | LoadIndex app_name index_name docs mapping doc_type es_host es_client
              connect_timeout =>
      load_index app_name index_name docs mapping doc_type es_host es_client
                 connect_timeout
  end.

(** The client a call works with. *)
Definition client_of (op : operation) : Elasticsearch :=
  client_or (es_client_of op) (es_host_of op).

(** The connectivity error of a call: without host diagnostics for the
    existence check and the field enumeration, with the hosts of the client
    for the others. *)
Definition connectivity_error (op : operation) : exn :=
  if is_read op then KnowledgeBaseConnectionError None
  else KnowledgeBaseConnectionError (Some (transport_hosts (client_of op))).

(** *** Connection failures of a computation *)

(** A computation lets a connection failure through, or has turned it into
    [E]: whenever the transport raised a connection error at one of its
    requests, it ends with that error or with [E]. *)
Definition guarded {A} (E : exn) (m : M A) : Prop :=
  forall s,
    any_connection_failed (trace (m s)) = true ->
    out (m s) = Raise E \/ exists info, out (m s) = Raise (ESConnectionError info).

(** A computation turns every connection failure into [E]: it ends with [E]
    whenever the transport raised a connection error, and never with a
    connection error of the transport. *)
Definition handled {A} (E : exn) (m : M A) : Prop :=
  forall s,
    (any_connection_failed (trace (m s)) = true -> out (m s) = Raise E)
    /\ (forall info, out (m s) <> Raise (ESConnectionError info)).

(** A computation sends only requests that satisfy [P]. *)
Definition sends {A} (P : es_request -> Prop) (m : M A) : Prop :=
  forall s, Forall P (requests_of (trace (m s))).

(** A request that, if it creates an index, creates [index] with [body]. *)
Definition creates_only (index : string) (body : pyval) (r : es_request) : Prop :=
  match r with
  | indices_create index' body' => index' = index /\ body' = body
  | _ => True
  end.

(** Every event of a computation satisfies [P]. *)
Definition emits {A} (P : event -> Prop) (m : M A) : Prop :=
  forall s, Forall P (trace (m s)).

(** A computation returns whenever all its requests are answered. *)
Definition completes {A} (m : M A) : Prop :=
  forall s, all_answered (trace (m s)) = true -> exists a, out (m s) = Return a.

(** The number of documents the loop of [load_index] went through, and of
    those it logged as failed. *)
Definition processed (t : list event) : nat :=
  length (List.filter is_document_record t).

Definition logged_failures (t : list event) : nat :=
  length (List.filter is_failure_record t).

(** *** The discipline of a computation *)

(** A computation stops sending at the first request that raises, and
    returns only if every request was answered. *)
Definition disciplined {A} (m : M A) : Prop :=
  forall s,
    stops_at_failure (trace (m s)) = true
    /\ (forall a, out (m s) = Return a -> all_answered (trace (m s)) = true).

(** The requests of [create_index] for a scoped index. *)
Definition creation_request (scoped : string) (mapping : pyval) (t : Z)
    (q : es_request) : Prop :=
  q = cluster_health t
  \/ q = indices_exists scoped
  \/ q = indices_exists_template DEFAULT_ES_INDEX_TEMPLATE_NAME
  \/ q = indices_put_template DEFAULT_ES_INDEX_TEMPLATE_NAME DEFAULT_ES_INDEX_TEMPLATE
  \/ q = indices_create scoped mapping.

(** The requests within the reach of a call: the probe, and what the call
    does to its own scoped index. *)
Definition within (op : operation) (q : es_request) : Prop :=
  match op with
  | DoesIndexExist app_name index_name _ _ t =>
      q = cluster_health t
      \/ q = indices_exists (app_name +:+ String "$" index_name)
  | GetFieldNames app_name index_name _ _ t =>
      q = cluster_health t
      \/ q = indices_get (app_name +:+ String "$" index_name)
  | CreateIndex app_name index_name mapping _ _ t =>
      creation_request (app_name +:+ String "$" index_name) mapping t q
  | DeleteIndex app_name index_name _ _ t =>
      q = cluster_health t
      \/ q = indices_exists (app_name +:+ String "$" index_name)
      \/ q = indices_delete (app_name +:+ String "$" index_name)
  | LoadIndex app_name index_name docs mapping doc_type _ _ t =>
      q = cluster_health t
      \/ q = indices_exists (app_name +:+ String "$" index_name)
      \/ creation_request (app_name +:+ String "$" index_name) mapping 2 q
      \/ exists chunk,
           q = bulk (app_name +:+ String "$" index_name) doc_type chunk
           /\ (0 < length chunk <= 50)%nat
  end.

(** An event within the reach of a call: a log record, or a request within
    reach sent through the client of the call. *)
Definition confined (op : operation) (ev : event) : Prop :=
  match ev with
  | Request es_client q _ => es_client = client_of op /\ within op q
  | Log _ _ _ => True
  end.

(** A computation returns only if no item of its bulk answers is reported as
    failed. *)
Definition unfailing {A} (m : M A) : Prop :=
  forall s a,
    out (m s) = Return a -> failures (answered_items (trace (m s))) = 0%nat.

(** ** Scoped naming *)

Lemma append_empty_r (s : string) : s +:+ EmptyString = s.
Proof.
  induction s as [|c s IH]; [reflexivity|].
  change (String c (s +:+ EmptyString) = String c s). now rewrite IH.
Qed.

Lemma get_scoped_index_name_eq (app_name index_name : string) :
  get_scoped_index_name app_name index_name
  = Return (app_name +:+ String "$" index_name).
Proof.
  unfold get_scoped_index_name. cbn. now rewrite append_empty_r.
Qed.

Lemma contains_separator_cons (c : ascii) (s : string) :
  contains_separator (String c s) = false ->
  c <> separator /\ contains_separator s = false.
Proof.
  simpl. destruct (Ascii.eqb_spec c separator) as [->|Hne]; [discriminate|].
  intros H. split; assumption.
Qed.

(** A scoped name is cut at its first separator: when the application names
    have none, the two parts are determined. *)
Lemma scoped_name_split (a1 a2 i1 i2 : string) :
  contains_separator a1 = false ->
  contains_separator a2 = false ->
  a1 +:+ String separator i1 = a2 +:+ String separator i2 ->
  a1 = a2 /\ i1 = i2.
Proof.
  revert a2. induction a1 as [|c1 a1 IH]; intros [|c2 a2] H1 H2 Heq; simpl in Heq.
  - injection Heq as ->. split; reflexivity.
  - apply contains_separator_cons in H2 as [Hc _].
    injection Heq as Hc' _. congruence.
  - apply contains_separator_cons in H1 as [Hc _].
    injection Heq as Hc' _. congruence.
  - apply contains_separator_cons in H1 as [_ H1].
    apply contains_separator_cons in H2 as [_ H2].
    injection Heq as -> Heq.
    destruct (IH a2 H1 H2 Heq) as [-> ->]. split; reflexivity.
Qed.

(** C9: the separator of the scoped index name is the literal [$]: for all
    application and index names the scoped name is the application name,
    then [$], then the index name. *)
Theorem scoped_name_is_app_dollar_index (app_name index_name : string) :
  get_scoped_index_name app_name index_name
  = Return (app_name +:+ String "$" index_name)
  /\ separator = "$"%char.
Proof.
  split; [apply get_scoped_index_name_eq | reflexivity].
Qed.

(** C5: the scoped name is a function of the two names that returns for
    every pair of names (it never raises), and it is injective on names
    without the separator: two different pairs of names, none of the four
    containing the separator, have different scoped names. *)
Theorem scoped_name_injective :
  (forall app_name index_name : string,
     exists s, get_scoped_index_name app_name index_name = Return s)
  /\ (forall a1 i1 a2 i2 : string,
        (a1, i1) <> (a2, i2) ->
        contains_separator a1 = false ->
        contains_separator i1 = false ->
        contains_separator a2 = false ->
        contains_separator i2 = false ->
        exists s1 s2,
          get_scoped_index_name a1 i1 = Return s1
          /\ get_scoped_index_name a2 i2 = Return s2
          /\ s1 <> s2).
Proof.
  split.
  - intros app_name index_name. eexists. apply get_scoped_index_name_eq.
  - intros a1 i1 a2 i2 Hne Ha1 _ Ha2 _.
    exists (a1 +:+ String separator i1), (a2 +:+ String separator i2).
    split; [apply get_scoped_index_name_eq|].
    split; [apply get_scoped_index_name_eq|].
    intros Heq. apply Hne.
    destruct (scoped_name_split a1 a2 i1 i2 Ha1 Ha2 Heq) as [-> ->].
    reflexivity.
Qed.

(** ** The connection factory *)

Lemma truthy_non_empty (v : option string) :
  truthy v = bool_decide (non_empty v).
Proof.
  destruct v as [s|]; [|reflexivity]. unfold truthy.
  destruct (String.eqb_spec s EmptyString) as [->|Hne].
  - reflexivity.
  - rewrite bool_decide_eq_true_2 by exact Hne. reflexivity.
Qed.

Lemma py_or_resolve (arg env : option string) :
  py_or arg env = resolve_non_empty arg env.
Proof.
  unfold py_or, resolve_non_empty, truthy. destruct arg as [a|]; [|reflexivity].
  destruct (String.eqb_spec a EmptyString) as [->|Hne].
  - reflexivity.
  - rewrite decide_False by exact Hne. reflexivity.
Qed.

(** C6, as the code has it: each of host, user and password resolves to the
    explicit argument if it is supplied and not empty, else to the value of
    its environment variable, else to nothing; the client has HTTP basic
    authentication, with the resolved user and password, if and only if
    both are non-empty, and no authentication otherwise. *)
Theorem create_es_client_resolution (es_host es_user es_pass : option string) :
  let es_client := create_es_client es_host es_user es_pass in
  let user := resolve_non_empty es_user (environ !! "MM_ES_USERNAME") in
  let pass := resolve_non_empty es_pass (environ !! "MM_ES_PASSWORD") in
  hosts es_client = resolve_non_empty es_host (environ !! "MM_ES_HOST")
  /\ http_auth es_client
     = if bool_decide (non_empty user /\ non_empty pass)
       then Some (user, pass) else None.
Proof.
  unfold create_es_client. cbn zeta. cbn [hosts http_auth].
  rewrite !py_or_resolve, !truthy_non_empty. split; [reflexivity|].
  set (u := resolve_non_empty es_user _). set (p := resolve_non_empty es_pass _).
  destruct (decide (non_empty u)) as [Hu|Hu], (decide (non_empty p)) as [Hp|Hp].
  - rewrite !bool_decide_eq_true_2 by tauto. reflexivity.
  - rewrite (bool_decide_eq_false_2 (non_empty p)) by assumption.
    rewrite (bool_decide_eq_false_2 (_ /\ _)) by tauto.
    now rewrite andb_false_r.
  - rewrite (bool_decide_eq_false_2 (non_empty u)) by assumption.
    rewrite (bool_decide_eq_false_2 (_ /\ _)) by tauto. reflexivity.
  - rewrite (bool_decide_eq_false_2 (non_empty u)) by assumption.
    rewrite (bool_decide_eq_false_2 (_ /\ _)) by tauto. reflexivity.
Qed.

(** ** The monad *)

Lemma bind_Return {A B} (m : M A) (f : A -> M B) s a s1 t1 :
  m s = Result (Return a) s1 t1 ->
  bind m f s = Result (out (f a s1)) (engine (f a s1)) (t1 ++ trace (f a s1)).
Proof. intros H. unfold bind. rewrite H. reflexivity. Qed.

Lemma bind_Raise {A B} (m : M A) (f : A -> M B) s e s1 t1 :
  m s = Result (Raise e) s1 t1 ->
  bind m f s = Result (Raise e) s1 t1.
Proof. intros H. unfold bind. rewrite H. reflexivity. Qed.

Lemma any_connection_failed_app (t1 t2 : list event) :
  any_connection_failed (t1 ++ t2)
  = any_connection_failed t1 || any_connection_failed t2.
Proof. apply existsb_app. Qed.

Lemma handled_guarded {A} E (m : M A) : handled E m -> guarded E m.
Proof. intros H s Hf. left. now apply (H s). Qed.

Lemma guarded_ret {A} E (a : A) : guarded E (ret a).
Proof. intros s Hf. discriminate. Qed.

Lemma guarded_raise {A} E e : guarded E (@raise A e).
Proof. intros s Hf. discriminate. Qed.

Lemma guarded_lift {A} E (o : outcome A) : guarded E (lift o).
Proof. intros s Hf. destruct o; discriminate. Qed.

Lemma guarded_logger E lvl msg args : guarded E (logger lvl msg args).
Proof. intros s Hf. discriminate. Qed.

Lemma guarded_request E es_client r : guarded E (request es_client r).
Proof.
  intros s. unfold request. destruct (transport es_client r s) as [[e|v] s1]; simpl.
  - destruct e; try discriminate. intros _. right. eauto.
  - discriminate.
Qed.

Lemma guarded_bind {A B} E (m : M A) (f : A -> M B) :
  guarded E m -> (forall a, guarded E (f a)) -> guarded E (bind m f).
Proof.
  intros Hm Hf s. specialize (Hm s). unfold bind.
  destruct (m s) as [[a|e] s1 t1]; simpl in *.
  - rewrite any_connection_failed_app. intros [H|H]%orb_true_iff.
    + destruct (Hm H) as [?|[? ?]]; discriminate.
    + apply (Hf a s1 H).
  - intros H. destruct (Hm H) as [[= ->]|[info [= ->]]]; eauto.
Qed.

Lemma guarded_for_in {X A} E (body : X -> A -> M A) (xs : list X) :
  (forall x acc, guarded E (body x acc)) ->
  forall acc, guarded E (for_in xs body acc).
Proof.
  intros Hbody. induction xs as [|x xs IH]; intros acc; simpl.
  - apply guarded_ret.
  - apply guarded_bind; [apply Hbody | exact IH].
Qed.

Lemma guarded_if {A} E (b : bool) (m1 m2 : M A) :
  guarded E m1 -> guarded E m2 -> guarded E (if b then m1 else m2).
Proof. destruct b; auto. Qed.

(** The handlers of the module log one record and raise [E]. *)
Lemma handled_try_except {A} E (body : M A) lvl msg args :
  is_connection_error E = false ->
  guarded E body ->
  handled E (try_except_ESConnectionError body
               (bind (logger lvl msg args) (fun _ => raise E))).
Proof.
  intros HE Hbody s. specialize (Hbody s). unfold try_except_ESConnectionError.
  destruct (body s) as [[a|e] s1 t1]; simpl in *.
  - split; [|discriminate].
    intros H. destruct (Hbody H) as [?|[? ?]]; discriminate.
  - destruct e; simpl in *;
      try (split; [intros H; destruct (Hbody H) as [?|[? ?]]; congruence
                  | discriminate]).
    split; [reflexivity|]. intros info' [= HE']. rewrite HE' in HE. discriminate.
Qed.

Lemma handled_bind {A B} E (m : M A) (f : A -> M B) :
  handled E m -> (forall a, handled E (f a)) -> handled E (bind m f).
Proof.
  intros Hm Hf s. specialize (Hm s). unfold bind.
  destruct (m s) as [[a|e] s1 t1]; simpl in *.
  - destruct (Hf a s1) as [Hf1 Hf2]. split; [|exact Hf2].
    rewrite any_connection_failed_app. intros [H|H]%orb_true_iff.
    + destruct Hm as [Hm _]. specialize (Hm H). discriminate.
    + now apply Hf1.
  - destruct Hm as [Hm1 Hm2]. split.
    + intros H. specialize (Hm1 H). now injection Hm1 as ->.
    + intros info [= ->]. now apply (Hm2 info).
Qed.

Lemma handled_ret {A} E (a : A) : handled E (ret a).
Proof. intros s. split; discriminate. Qed.

Lemma handled_scoped {A} E app_name index_name (f : string -> M A) :
  (forall scoped, handled E (f scoped)) ->
  handled E (bind (lift (get_scoped_index_name app_name index_name)) f).
Proof.
  intros Hf. rewrite get_scoped_index_name_eq. apply handled_bind; [|exact Hf].
  apply handled_ret.
Qed.

Hint Resolve guarded_ret guarded_lift guarded_logger guarded_request
     guarded_bind guarded_for_in guarded_if handled_guarded : guard.

Lemma guarded_load_item E index_name doc_type item count :
  guarded E (load_item index_name doc_type item count).
Proof.
  unfold load_item. destruct item as [okay result].
  apply guarded_bind; [apply guarded_lift|]. intros [[action result'] rest].
  apply guarded_bind; [apply guarded_lift|]. intros id.
  apply guarded_bind; [apply guarded_lift|]. intros doc_id.
  destruct okay; cbn [negb]; auto with guard.
Qed.

Lemma does_index_exist_handled app_name index_name es_host es_client t :
  handled (KnowledgeBaseConnectionError None)
          (does_index_exist app_name index_name es_host es_client t).
Proof.
  unfold does_index_exist. apply handled_scoped. intros scoped.
  apply handled_try_except; [reflexivity|]. auto with guard.
Qed.

Lemma get_field_names_handled app_name index_name es_host es_client t :
  handled (KnowledgeBaseConnectionError None)
          (get_field_names app_name index_name es_host es_client t).
Proof.
  unfold get_field_names. apply handled_scoped. intros scoped.
  apply handled_try_except; [reflexivity|].
  repeat (apply guarded_bind; [auto with guard|intros ?]). auto with guard.
Qed.

Lemma create_index_handled app_name index_name mapping es_host es_client t :
  handled (KnowledgeBaseConnectionError
             (Some (transport_hosts (client_or es_client es_host))))
          (create_index app_name index_name mapping es_host es_client t).
Proof.
  unfold create_index. apply handled_scoped. intros scoped.
  apply handled_try_except; [reflexivity|].
  apply guarded_bind; [auto with guard|intros _].
  apply guarded_bind; [auto with guard|intros exists_].
  apply guarded_bind; [|auto with guard].
  destruct exists_; cbn [negb]; [auto with guard|].
  apply guarded_bind; [auto with guard|intros has_template].
  apply guarded_bind; [destruct has_template; cbn [negb]; auto with guard|intros _].
  auto 10 with guard.
Qed.

Lemma delete_index_handled app_name index_name es_host es_client t :
  handled (KnowledgeBaseConnectionError
             (Some (transport_hosts (client_or es_client es_host))))
          (delete_index app_name index_name es_host es_client t).
Proof.
  unfold delete_index. apply handled_scoped. intros scoped.
  apply handled_try_except; [reflexivity|].
  apply guarded_bind; [auto with guard|intros _].
  apply guarded_bind; [auto with guard|intros exists_].
  apply guarded_bind; [|auto with guard].
  destruct exists_; cbn [negb]; auto 10 with guard.
Qed.

Lemma load_index_handled app_name index_name docs mapping doc_type es_host
    es_client t :
  handled (KnowledgeBaseConnectionError
             (Some (transport_hosts (client_or es_client es_host))))
          (load_index app_name index_name docs mapping doc_type es_host es_client t).
Proof.
  unfold load_index. apply handled_scoped. intros scoped.
  apply handled_try_except; [reflexivity|].
  apply guarded_bind; [auto with guard|intros _].
  apply guarded_bind; [auto with guard|intros exists_].
  apply guarded_bind.
  - destruct exists_; cbn [negb]; [auto with guard|].
    apply guarded_bind; [|auto with guard].
    apply handled_guarded.
    apply (create_index_handled app_name index_name mapping es_host
             (Some (client_or es_client es_host)) 2).
  - intros _. apply guarded_bind; [|auto 10 with guard].
    unfold for_streaming_bulk. apply guarded_for_in. intros chunk acc.
    unfold submit_chunk. apply guarded_bind; [auto with guard|intros items].
    apply guarded_bind.
    + apply guarded_for_in. intros item acc'. apply guarded_load_item.
    + intros acc'. destruct (failed_results items);
        [apply guarded_ret | apply guarded_raise].
Qed.

(** Every operation turns a connection failure of the transport into its
    connectivity error. *)
Lemma perform_handled (op : operation) :
  handled (connectivity_error op) (perform op).
Proof.
  destruct op; unfold connectivity_error, client_of; simpl.
  - apply handled_bind; [apply does_index_exist_handled|]. intros b. apply handled_ret.
  - apply handled_bind; [apply get_field_names_handled|]. intros b. apply handled_ret.
  - apply create_index_handled.
  - apply delete_index_handled.
  - apply load_index_handled.
Qed.

(** C2: for every operation, if the transport raises a connection error at
    one of its requests, the operation raises a
    [KnowledgeBaseConnectionError], an error kind of its own; the
    connection error of the transport does not reach the caller. *)
Theorem connection_error_is_translated (op : operation) (s : S) :
  any_connection_failed (trace (perform op s)) = true ->
  (exists es_host, out (perform op s) = Raise (KnowledgeBaseConnectionError es_host))
  /\ (forall info, out (perform op s) <> Raise (ESConnectionError info))
  /\ (forall es_host info, KnowledgeBaseConnectionError es_host <> ESConnectionError info).
Proof.
  intros Hfail. destruct (perform_handled op s) as [H1 H2].
  split; [|split; [exact H2 | discriminate]].
  rewrite (H1 Hfail). unfold connectivity_error. destruct (is_read op); eauto.
Qed.

(** C10: on a connection failure the existence check and the field
    enumeration raise the [KnowledgeBaseConnectionError] built with no
    argument; index creation, index deletion and bulk load raise it with
    the hosts of the connection. *)
Theorem connection_error_host_diagnostics (op : operation) (s : S) :
  any_connection_failed (trace (perform op s)) = true ->
  out (perform op s)
  = Raise (match op with
           | DoesIndexExist _ _ _ _ _ | GetFieldNames _ _ _ _ _ =>
               KnowledgeBaseConnectionError None
           | _ =>
               KnowledgeBaseConnectionError (Some (transport_hosts (client_of op)))
           end).
Proof.
  intros Hfail. destruct (perform_handled op s) as [H1 _].
  rewrite (H1 Hfail). destruct op; reflexivity.
Qed.

(** ** Running the operations against given answers *)

Lemma bind_ret_eq {A B} (a : A) (K : A -> M B) (s : S) :
  bind (ret a) K s = Result (out (K a s)) (engine (K a s)) (trace (K a s)).
Proof. reflexivity. Qed.

Lemma bind_logger_eq {B} lvl msg args (K : unit -> M B) (s : S) :
  bind (logger lvl msg args) K s
  = Result (out (K tt s)) (engine (K tt s)) (Log lvl msg args :: trace (K tt s)).
Proof. reflexivity. Qed.

Lemma bind_request_ok {B} es_client q (K : es_response q -> M B) (s s1 : S) v :
  transport es_client q s = (inr v, s1) ->
  bind (request es_client q) K s
  = Result (out (K v s1)) (engine (K v s1))
           (Request es_client q (inr v) :: trace (K v s1)).
Proof. intros H. unfold bind, request. rewrite H. reflexivity. Qed.

Lemma bind_request_raise {B} es_client q (K : es_response q -> M B) (s s1 : S) e :
  transport es_client q s = (inl e, s1) ->
  bind (request es_client q) K s
  = Result (Raise e) s1 [Request es_client q (inl e)].
Proof. intros H. unfold bind, request. rewrite H. reflexivity. Qed.

Lemma try_except_Return {A} (body handler : M A) (s s1 : S) a t :
  body s = Result (Return a) s1 t ->
  try_except_ESConnectionError body handler s = Result (Return a) s1 t.
Proof. intros H. unfold try_except_ESConnectionError. rewrite H. reflexivity. Qed.

Lemma try_except_caught {A} (body : M A) lvl msg args E (s s1 : S) info t :
  body s = Result (Raise (ESConnectionError info)) s1 t ->
  try_except_ESConnectionError body (bind (logger lvl msg args) (fun _ => raise E)) s
  = Result (Raise E) s1 (t ++ [Log lvl msg args]).
Proof. intros H. unfold try_except_ESConnectionError. rewrite H. reflexivity. Qed.

Lemma try_except_passed {A} (body handler : M A) (s s1 : S) e t :
  body s = Result (Raise e) s1 t ->
  is_connection_error e = false ->
  try_except_ESConnectionError body handler s = Result (Raise e) s1 t.
Proof.
  intros H He. unfold try_except_ESConnectionError. rewrite H.
  destruct e; try reflexivity. discriminate.
Qed.

(** A [try] that starts with the health probe, when the probe cannot
    connect. *)
Lemma probe_fails {A} es_client t (K : pyval -> M A) lvl msg args E
    (s s' : S) info :
  transport es_client (cluster_health t) s = (inl (ESConnectionError info), s') ->
  try_except_ESConnectionError
    (bind (request es_client (cluster_health t)) K)
    (bind (logger lvl msg args) (fun _ => raise E)) s
  = Result (Raise E) s'
      [Request es_client (cluster_health t) (inl (ESConnectionError info));
       Log lvl msg args].
Proof.
  intros H.
  apply (try_except_caught _ lvl msg args E s s' info
           [Request es_client (cluster_health t) (inl (ESConnectionError info))]).
  now apply bind_request_raise.
Qed.

Lemma failed_probe_run (op : operation) (s s' : S) (info : string) :
  transport (client_of op) (cluster_health (timeout_of op)) s
  = (inl (ESConnectionError info), s') ->
  exists lvl msg args,
    perform op s
    = Result (Raise (connectivity_error op)) s'
        [Request (client_of op) (cluster_health (timeout_of op))
                 (inl (ESConnectionError info));
         Log lvl msg args].
Proof.
  intros H. unfold client_of in *.
  destruct op; cbn [es_client_of es_host_of timeout_of] in *;
    unfold perform, connectivity_error, client_of;
    cbn [is_read es_client_of es_host_of timeout_of].
  - do 3 eexists. apply bind_Raise. unfold does_index_exist.
    rewrite get_scoped_index_name_eq. cbn [lift]. rewrite bind_ret_eq.
    rewrite (probe_fails _ _ _ _ _ _ _ _ _ _ H). reflexivity.
  - do 3 eexists. apply bind_Raise. unfold get_field_names.
    rewrite get_scoped_index_name_eq. cbn [lift]. rewrite bind_ret_eq.
    rewrite (probe_fails _ _ _ _ _ _ _ _ _ _ H). reflexivity.
  - do 3 eexists. unfold create_index.
    rewrite get_scoped_index_name_eq. cbn [lift]. rewrite bind_ret_eq.
    rewrite (probe_fails _ _ _ _ _ _ _ _ _ _ H). reflexivity.
  - do 3 eexists. unfold delete_index.
    rewrite get_scoped_index_name_eq. cbn [lift]. rewrite bind_ret_eq.
    rewrite (probe_fails _ _ _ _ _ _ _ _ _ _ H). reflexivity.
  - do 3 eexists. unfold load_index.
    rewrite get_scoped_index_name_eq. cbn [lift]. rewrite bind_ret_eq.
    rewrite (probe_fails _ _ _ _ _ _ _ _ _ _ H). reflexivity.
Qed.

(** C8: for every operation, if the health probe it starts with fails with
    a connection error, the operation raises its connectivity error and
    sends no other request: the engine is left as the failed probe left
    it, no index is created or deleted, no template is put and no document
    is submitted. *)
Theorem failed_probe_mutates_nothing (op : operation) (s s' : S) (info : string) :
  transport (client_of op) (cluster_health (timeout_of op)) s
  = (inl (ESConnectionError info), s') ->
  out (perform op s) = Raise (connectivity_error op)
  /\ (exists es_host, connectivity_error op = KnowledgeBaseConnectionError es_host)
  /\ requests_of (trace (perform op s)) = [cluster_health (timeout_of op)]
  /\ engine (perform op s) = s'
  /\ Forall (fun r => is_mutation r = false) (requests_of (trace (perform op s))).
Proof.
  intros H. destruct (failed_probe_run op s s' info H) as (lvl & msg & args & Hrun).
  rewrite Hrun. cbn [out engine trace]. unfold requests_of. cbn [omap request_of].
  repeat split.
  - unfold connectivity_error. destruct (is_read op); eauto.
  - repeat constructor.
Qed.

(** The probe and the existence check, both answered. *)
Lemma probe_and_exists {A} es_client t index (K : bool -> M A)
    (s s1 s2 : S) health exists_ :
  transport es_client (cluster_health t) s = (inr health, s1) ->
  transport es_client (indices_exists index) s1 = (inr exists_, s2) ->
  bind (request es_client (cluster_health t))
       (fun _ => bind (request es_client (indices_exists index)) K) s
  = Result (out (K exists_ s2)) (engine (K exists_ s2))
      (Request es_client (cluster_health t) (inr health)
       :: Request es_client (indices_exists index) (inr exists_)
       :: trace (K exists_ s2)).
Proof.
  intros H1 H2. rewrite (bind_request_ok _ _ _ _ _ _ H1). cbn [out engine trace].
  rewrite (bind_request_ok _ _ _ _ _ _ H2). reflexivity.
Qed.

(** C3: when the scoped index already exists, [create_index] logs that it
    does and returns without an error; it sends no request besides the
    health probe and the existence check, so creation is not attempted
    again, and whatever of the engine those two requests leave alone, the
    mapping of the index to begin with, is as it was. *)
Theorem create_index_existing_is_noop
    (app_name index_name : string) (mapping : pyval) (es_host : option string)
    (es_client : option Elasticsearch) (connect_timeout : Z)
    (s s1 s2 : S) (health : pyval)
    {X : Type} (observe : S -> X) :
  let client := client_or es_client es_host in
  let scoped := app_name +:+ String "$" index_name in
  let r := create_index app_name index_name mapping es_host es_client
             connect_timeout s in
  transport client (cluster_health connect_timeout) s = (inr health, s1) ->
  transport client (indices_exists scoped) s1 = (inr true, s2) ->
  (forall c q s0, is_mutation q = false -> observe (snd (transport c q s0)) = observe s0) ->
  out r = Return VNone
  /\ trace r = [Request client (cluster_health connect_timeout) (inr health);
                Request client (indices_exists scoped) (inr true);
                Log ERROR "Index %r already exists." [VStr index_name]]
  /\ requests_of (trace r) = [cluster_health connect_timeout; indices_exists scoped]
  /\ engine r = s2
  /\ observe (engine r) = observe s.
Proof.
  intros client scoped r H1 H2 Hobs.
  assert (Hr : r = Result (Return VNone) s2
                 [Request client (cluster_health connect_timeout) (inr health);
                  Request client (indices_exists scoped) (inr true);
                  Log ERROR "Index %r already exists." [VStr index_name]]).
  { subst r. unfold create_index. rewrite get_scoped_index_name_eq.
    fold client. fold scoped. cbn [lift]. rewrite bind_ret_eq.
    erewrite try_except_Return; [reflexivity|].
    rewrite (probe_and_exists _ _ _ _ _ _ _ _ _ H1 H2). reflexivity. }
  rewrite Hr. cbn [out engine trace].
  repeat split.
  pose proof (Hobs client (cluster_health connect_timeout) s eq_refl) as E1.
  pose proof (Hobs client (indices_exists scoped) s1 eq_refl) as E2.
  rewrite H1 in E1. rewrite H2 in E2. cbn [snd] in E1, E2. congruence.
Qed.

(** C4: [delete_index] deletes the scoped index when it exists: after the
    probe and the existence check its one further request is the deletion
    of the scoped index, and it returns when the engine has answered it.
    When the scoped index does not exist it returns without an error,
    without a log record and without a deletion. *)
Theorem delete_index_deletes_or_is_silent
    (app_name index_name : string) (es_host : option string)
    (es_client : option Elasticsearch) (connect_timeout : Z)
    (s s1 s2 : S) (health : pyval) (exists_ : bool) :
  let client := client_or es_client es_host in
  let scoped := app_name +:+ String "$" index_name in
  let r := delete_index app_name index_name es_host es_client connect_timeout s in
  transport client (cluster_health connect_timeout) s = (inr health, s1) ->
  transport client (indices_exists scoped) s1 = (inr exists_, s2) ->
  if exists_ then
    let deletion := transport client (indices_delete scoped) s2 in
    requests_of (trace r)
    = [cluster_health connect_timeout; indices_exists scoped; indices_delete scoped]
    /\ engine r = snd deletion
    /\ out r = match fst deletion with
               | inr _ => Return VNone
               | inl (ESConnectionError _) =>
                   Raise (KnowledgeBaseConnectionError (Some (transport_hosts client)))
               | inl e => Raise e
               end
  else
    out r = Return VNone
    /\ trace r = [Request client (cluster_health connect_timeout) (inr health);
                  Request client (indices_exists scoped) (inr false)]
    /\ engine r = s2.
Proof.
  intros client scoped r H1 H2. subst r.
  unfold delete_index. rewrite get_scoped_index_name_eq.
  fold client. fold scoped. cbn [lift]. rewrite bind_ret_eq.
  cbn [out engine trace].
  match goal with
  | |- context [try_except_ESConnectionError ?b ?h s] => set (body := b)
  end.
  destruct exists_.
  - cbn zeta.
    destruct (transport client (indices_delete scoped) s2) as [[e|v] s3] eqn:H3;
      cbn [fst snd].
    + assert (Hbody :
        body s
        = Result (Raise e) s3
            [Request client (cluster_health connect_timeout) (inr health);
             Request client (indices_exists scoped) (inr true);
             Log INFO "Deleting index %r" [VStr index_name];
             Request client (indices_delete scoped) (inl e)]).
      { subst body. rewrite (probe_and_exists _ _ _ _ _ _ _ _ _ H1 H2).
        erewrite (bind_Raise _ _ s2); [reflexivity|].
        rewrite bind_logger_eq. rewrite (bind_request_raise _ _ _ _ _ _ H3).
        reflexivity. }
      destruct (is_connection_error e) eqn:He.
      * destruct e; try discriminate.
        rewrite (try_except_caught _ _ _ _ _ _ _ _ _ Hbody).
        cbn [out engine trace]. repeat split.
      * rewrite (try_except_passed _ _ _ _ _ _ Hbody He).
        cbn [out engine trace].
        repeat split. destruct e; try reflexivity. discriminate.
    + assert (Hbody :
        body s
        = Result (Return VNone) s3
            [Request client (cluster_health connect_timeout) (inr health);
             Request client (indices_exists scoped) (inr true);
             Log INFO "Deleting index %r" [VStr index_name];
             Request client (indices_delete scoped) (inr v)]).
      { subst body. rewrite (probe_and_exists _ _ _ _ _ _ _ _ _ H1 H2).
        lazy beta iota.
        assert (Hin :
          bind (logger INFO "Deleting index %r" [VStr index_name])
            (fun _ => bind (request client (indices_delete scoped))
                        (fun _ => ret tt)) s2
          = Result (Return tt) s3
              [Log INFO "Deleting index %r" [VStr index_name];
               Request client (indices_delete scoped) (inr v)]).
        { rewrite bind_logger_eq. rewrite (bind_request_ok _ _ _ _ _ _ H3).
          reflexivity. }
        rewrite (bind_Return _ _ _ _ _ _ Hin). reflexivity. }
      rewrite (try_except_Return _ _ _ _ _ _ Hbody).
      cbn [out engine trace]. repeat split.
  - assert (Hbody :
      body s
      = Result (Return VNone) s2
          [Request client (cluster_health connect_timeout) (inr health);
           Request client (indices_exists scoped) (inr false)]).
    { subst body. rewrite (probe_and_exists _ _ _ _ _ _ _ _ _ H1 H2).
      reflexivity. }
    rewrite (try_except_Return _ _ _ _ _ _ Hbody).
    cbn [out engine trace]. repeat split.
Qed.

(** ** What the operations send *)

Lemma requests_of_app (t1 t2 : list event) :
  requests_of (t1 ++ t2) = requests_of t1 ++ requests_of t2.
Proof. apply omap_app. Qed.

Lemma requests_of_request es_client q a (t : list event) :
  requests_of (Request es_client q a :: t) = q :: requests_of t.
Proof. reflexivity. Qed.

Lemma requests_of_log lvl msg args (t : list event) :
  requests_of (Log lvl msg args :: t) = requests_of t.
Proof. reflexivity. Qed.

Lemma out_bind {A B} (m : M A) (f : A -> M B) (s : S) :
  out (bind m f s)
  = match out (m s) with
    | Return a => out (f a (engine (m s)))
    | Raise e => Raise e
    end.
Proof. unfold bind. destruct (out (m s)); reflexivity. Qed.

Lemma engine_bind {A B} (m : M A) (f : A -> M B) (s : S) :
  engine (bind m f s)
  = match out (m s) with
    | Return a => engine (f a (engine (m s)))
    | Raise e => engine (m s)
    end.
Proof. unfold bind. destruct (out (m s)); reflexivity. Qed.

Lemma trace_bind {A B} (m : M A) (f : A -> M B) (s : S) :
  trace (bind m f s)
  = trace (m s)
    ++ match out (m s) with
       | Return a => trace (f a (engine (m s)))
       | Raise _ => []
       end.
Proof.
  unfold bind. destruct (out (m s)); cbn [trace]; [reflexivity|].
  now rewrite app_nil_r.
Qed.

Lemma requests_of_bind {A B} (m : M A) (f : A -> M B) (s : S) :
  requests_of (trace (bind m f s))
  = requests_of (trace (m s))
    ++ match out (m s) with
       | Return a => requests_of (trace (f a (engine (m s))))
       | Raise _ => []
       end.
Proof.
  unfold bind. destruct (out (m s)); cbn [trace].
  - apply requests_of_app.
  - now rewrite app_nil_r.
Qed.

(** The handlers of the module send nothing. *)
Lemma requests_of_try_except {A} (body : M A) lvl msg args E (s : S) :
  requests_of (trace (try_except_ESConnectionError body
                        (bind (logger lvl msg args) (fun _ => raise E)) s))
  = requests_of (trace (body s)).
Proof.
  unfold try_except_ESConnectionError.
  destruct (body s) as [[a|e] s1 t]; cbn [out]; [reflexivity|].
  destruct e; try reflexivity.
  cbn [trace]. rewrite requests_of_app. cbn. now rewrite app_nil_r.
Qed.

Lemma out_try_except_passed {A} (body handler : M A) (s : S) e :
  out (body s) = Raise e ->
  is_connection_error e = false ->
  out (try_except_ESConnectionError body handler s) = Raise e.
Proof.
  intros H He. unfold try_except_ESConnectionError. rewrite H.
  destruct e; try exact H. discriminate.
Qed.

Lemma sends_ret {A} P (a : A) : sends P (ret a).
Proof. intros s. constructor. Qed.

Lemma sends_raise {A} P e : sends P (@raise A e).
Proof. intros s. constructor. Qed.

Lemma sends_lift {A} P (o : outcome A) : sends P (lift o).
Proof. intros s. destruct o; constructor. Qed.

Lemma sends_logger P lvl msg args : sends P (logger lvl msg args).
Proof. intros s. constructor. Qed.

Lemma sends_request (P : es_request -> Prop) es_client r :
  P r -> sends P (request es_client r).
Proof.
  intros HP s. unfold request. destruct (transport es_client r s) as [a s1].
  cbn. repeat constructor. exact HP.
Qed.

Lemma sends_bind {A B} P (m : M A) (f : A -> M B) :
  sends P m -> (forall a, sends P (f a)) -> sends P (bind m f).
Proof.
  intros Hm Hf s. specialize (Hm s). unfold bind.
  destruct (m s) as [[a|e] s1 t1]; cbn [out engine trace] in *.
  - rewrite requests_of_app. apply Forall_app. split; [exact Hm | apply Hf].
  - exact Hm.
Qed.

Lemma sends_bind_ret {A B} P (a : A) (f : A -> M B) :
  sends P (f a) -> sends P (bind (ret a) f).
Proof. intros H s. unfold bind, ret. cbn. apply H. Qed.

Lemma sends_for_in {X A} P (body : X -> A -> M A) (xs : list X) :
  (forall x acc, sends P (body x acc)) ->
  forall acc, sends P (for_in xs body acc).
Proof.
  intros Hbody. induction xs as [|x xs IH]; intros acc; cbn [for_in].
  - apply sends_ret.
  - apply sends_bind; [apply Hbody | exact IH].
Qed.

Lemma sends_try_except {A} P (body handler : M A) :
  sends P body -> sends P handler ->
  sends P (try_except_ESConnectionError body handler).
Proof.
  intros Hb Hh s. specialize (Hb s). unfold try_except_ESConnectionError.
  destruct (body s) as [[a|e] s1 t1]; cbn [out engine trace] in *;
    [exact Hb|].
  destruct e; try exact Hb. cbn [out engine trace].
  rewrite requests_of_app. apply Forall_app. split; [exact Hb | apply Hh].
Qed.

Lemma sends_if {A} P (b : bool) (m1 m2 : M A) :
  sends P m1 -> sends P m2 -> sends P (if b then m1 else m2).
Proof. destruct b; auto. Qed.

Hint Resolve sends_ret sends_raise sends_lift sends_logger sends_bind
     sends_for_in sends_try_except sends_if : guard.

Lemma sends_load_item P index_name doc_type item count :
  sends P (load_item index_name doc_type item count).
Proof.
  unfold load_item. destruct item as [okay result].
  apply sends_bind; [apply sends_lift|]. intros [[action result'] rest].
  apply sends_bind; [apply sends_lift|]. intros id.
  apply sends_bind; [apply sends_lift|]. intros doc_id.
  destruct okay; cbn [negb]; auto with guard.
Qed.

(** The loop of [load_index] sends bulk requests and nothing else. *)
Lemma for_streaming_bulk_sends_bulk es_client docs index index_name doc_type n count :
  sends (fun r => is_bulk r = true)
        (for_streaming_bulk es_client docs index doc_type n
           (load_item index_name doc_type) count).
Proof.
  unfold for_streaming_bulk. apply sends_for_in. intros chunk acc.
  unfold submit_chunk. apply sends_bind; [now apply sends_request|]. intros items.
  apply sends_bind.
  - apply sends_for_in. intros item acc'. apply sends_load_item.
  - intros acc'. destruct (failed_results items);
      [apply sends_ret | apply sends_raise].
Qed.

(** If [create_index] creates an index, it is the scoped one, with the
    mapping it was given. *)
Lemma create_index_creates_only app_name index_name mapping es_host es_client t :
  sends (creates_only (app_name +:+ String "$" index_name) mapping)
        (create_index app_name index_name mapping es_host es_client t).
Proof.
  unfold create_index. rewrite get_scoped_index_name_eq.
  apply sends_bind_ret.
  apply sends_try_except; [|auto with guard].
  apply sends_bind; [now apply sends_request|intros _].
  apply sends_bind; [now apply sends_request|intros exists_].
  apply sends_bind; [|auto with guard].
  destruct exists_; cbn [negb]; [auto with guard|].
  apply sends_bind; [now apply sends_request|intros has_template].
  apply sends_bind.
  - destruct has_template; cbn [negb]; [auto with guard|].
    apply sends_bind; [now apply sends_request|auto with guard].
  - intros _. apply sends_bind; [auto with guard|intros _].
    apply sends_bind; [|auto with guard].
    apply sends_request. split; reflexivity.
Qed.

(** C7: when the scoped index does not exist, [load_index] first calls
    [create_index] with the mapping of the caller, and submits documents
    only after it has returned (an index that call creates is the scoped
    one, with that mapping; if it raises, its exception is the one of
    [load_index] and no document is submitted). When the index exists, the
    probe and the existence check are followed by bulk requests only: no
    creation is attempted. *)
Theorem load_index_creates_missing_index_first
    (app_name index_name : string) (docs : list pyval) (mapping : pyval)
    (doc_type : string) (es_host : option string)
    (es_client : option Elasticsearch) (connect_timeout : Z)
    (s s1 s2 : S) (health : pyval) (exists_ : bool) :
  let client := client_or es_client es_host in
  let scoped := app_name +:+ String "$" index_name in
  let r := load_index app_name index_name docs mapping doc_type es_host es_client
             connect_timeout s in
  let stream := for_streaming_bulk client docs scoped doc_type 50
                  (load_item index_name doc_type) 0%Z in
  transport client (cluster_health connect_timeout) s = (inr health, s1) ->
  transport client (indices_exists scoped) s1 = (inr exists_, s2) ->
  if exists_ then
    requests_of (trace r)
    = [cluster_health connect_timeout; indices_exists scoped]
      ++ requests_of (trace (stream s2))
    /\ Forall (fun q => is_bulk q = true) (requests_of (trace (stream s2)))
  else
    let creation := create_index app_name index_name mapping es_host (Some client) 2 s2 in
    Forall (creates_only scoped mapping) (requests_of (trace creation))
    /\ match out creation with
       | Return _ =>
           requests_of (trace r)
           = [cluster_health connect_timeout; indices_exists scoped]
             ++ requests_of (trace creation)
             ++ requests_of (trace (stream (engine creation)))
           /\ Forall (fun q => is_bulk q = true)
                     (requests_of (trace (stream (engine creation))))
       | Raise e =>
           requests_of (trace r)
           = [cluster_health connect_timeout; indices_exists scoped]
             ++ requests_of (trace creation)
           /\ out r = Raise e
       end.
Proof.
  intros client scoped r stream H1 H2. subst r.
  unfold load_index. rewrite get_scoped_index_name_eq.
  cbn [lift]. rewrite bind_ret_eq.
  cbn [out engine trace]. lazy beta. fold client. fold scoped. fold stream.
  rewrite requests_of_try_except.
  match goal with
  | |- context [try_except_ESConnectionError ?b ?h s] => set (body := b)
  end.
  assert (Hlast : forall (count : Z) (s0 : S),
            requests_of
              (trace (bind (logger INFO "Loaded %s document%s"
                              [VInt count;
                               VStr (if (count =? 1)%Z then EmptyString else "s")])
                           (fun _ => ret VNone) s0)) = []) by reflexivity.
  destruct exists_.
  - split; [|apply for_streaming_bulk_sends_bulk].
    subst body. rewrite (probe_and_exists _ _ _ _ _ _ _ _ _ H1 H2).
    cbn [trace]. rewrite !requests_of_request. lazy beta iota.
    rewrite bind_logger_eq. cbn [trace]. rewrite requests_of_log.
    rewrite requests_of_bind.
    destruct (out (stream s2)); [rewrite Hlast|]; now rewrite app_nil_r.
  - cbn zeta. split; [apply create_index_creates_only|].
    pose proof (create_index_handled app_name index_name mapping es_host
                  (Some client) 2 s2) as [_ Hnc].
    set (creation := create_index app_name index_name mapping es_host
                       (Some client) 2 s2) in *.
    assert (Hbody_trace :
      requests_of (trace (body s))
      = [cluster_health connect_timeout; indices_exists scoped]
        ++ requests_of (trace creation)
        ++ match out creation with
           | Return _ => requests_of (trace (stream (engine creation)))
           | Raise _ => []
           end).
    { subst body. rewrite (probe_and_exists _ _ _ _ _ _ _ _ _ H1 H2).
      cbn [trace]. rewrite !requests_of_request. lazy beta iota.
      rewrite requests_of_bind, requests_of_bind, out_bind, engine_bind.
      fold creation.
      destruct (out creation) as [v|e] eqn:Hc.
      - cbn [ret out engine trace]. rewrite requests_of_bind.
        destruct (out (stream (engine creation))); [rewrite Hlast|];
          cbn; now rewrite ?app_nil_r.
      - cbn. now rewrite !app_nil_r. }
    rewrite Hbody_trace.
    destruct (out creation) as [v|e] eqn:Hc.
    + split; [reflexivity | apply for_streaming_bulk_sends_bulk].
    + split; [now rewrite app_nil_r|].
      apply out_try_except_passed.
      * subst body. rewrite (probe_and_exists _ _ _ _ _ _ _ _ _ H1 H2).
        cbn [out]. lazy beta iota. rewrite out_bind, out_bind. fold creation.
        now rewrite Hc.
      * destruct e; try reflexivity. exfalso. now apply (Hnc info).
Qed.

(** ** The bulk loader *)

Lemma chunked_fuel_concat (n : nat) (fuel : nat) (docs : list pyval) :
  (0 < n)%nat -> (length docs <= fuel)%nat ->
  concat (chunked_fuel fuel n docs) = docs.
Proof.
  intros Hn. revert docs. induction fuel as [|fuel IH]; intros docs Hlen.
  - destruct docs; [reflexivity | simpl in Hlen; lia].
  - destruct docs as [|d docs]; [reflexivity|].
    cbn [chunked_fuel concat]. rewrite IH.
    + apply take_drop.
    + rewrite length_drop. simpl in *. lia.
Qed.

Lemma chunked_concat (n : nat) (docs : list pyval) :
  (0 < n)%nat -> concat (chunked n docs) = docs.
Proof. intros Hn. apply chunked_fuel_concat; [exact Hn | reflexivity]. Qed.

Lemma answered_items_app (t1 t2 : list event) :
  answered_items (t1 ++ t2) = answered_items t1 ++ answered_items t2.
Proof. unfold answered_items. now rewrite map_app, concat_app. Qed.

Lemma submitted_docs_app (t1 t2 : list event) :
  submitted_docs (t1 ++ t2) = submitted_docs t1 ++ submitted_docs t2.
Proof. unfold submitted_docs. now rewrite map_app, concat_app. Qed.

Lemma processed_app (t1 t2 : list event) :
  processed (t1 ++ t2) = (processed t1 + processed t2)%nat.
Proof. unfold processed. now rewrite List.filter_app, length_app. Qed.

Lemma logged_failures_app (t1 t2 : list event) :
  logged_failures (t1 ++ t2) = (logged_failures t1 + logged_failures t2)%nat.
Proof. unfold logged_failures. now rewrite List.filter_app, length_app. Qed.

Lemma failures_app (l1 l2 : list bulk_item) :
  failures (l1 ++ l2) = (failures l1 + failures l2)%nat.
Proof. unfold failures. now rewrite List.filter_app, length_app. Qed.

Lemma failures_le (l : list bulk_item) : (failures l <= length l)%nat.
Proof. apply List.filter_length_le. Qed.

Lemma all_answered_app (t1 t2 : list event) :
  all_answered (t1 ++ t2) = all_answered t1 && all_answered t2.
Proof. apply forallb_app. Qed.

Lemma bulk_answers_well_formed_app (t1 t2 : list event) :
  bulk_answers_well_formed (t1 ++ t2)
  = bulk_answers_well_formed t1 && bulk_answers_well_formed t2.
Proof. apply forallb_app. Qed.

(** What a trace of log records only adds up to. *)
Lemma logs_only (t : list event) :
  forallb is_log t = true ->
  answered_items t = [] /\ submitted_docs t = []
  /\ all_answered t = true /\ bulk_answers_well_formed t = true.
Proof.
  induction t as [|ev t IH]; [repeat split|].
  cbn [forallb]. intros [Hev Ht]%andb_true_iff.
  destruct (IH Ht) as (I1 & I2 & I3 & I4).
  destruct ev as [c r a|lvl msg args]; [discriminate|].
  unfold answered_items, submitted_docs, all_answered, bulk_answers_well_formed in *.
  cbn. repeat split; assumption.
Qed.

(** The loop body on an item it can read: one log record, the count one up
    if the engine reports success. *)
Lemma load_item_run index_name doc_type (item : bulk_item) (count : Z) (s : S) :
  item_well_formed item = true ->
  exists ev,
    load_item index_name doc_type item count s
    = Result (Return (if fst item then count + 1 else count)%Z) s [ev]
    /\ is_log ev = true
    /\ is_document_record ev = true
    /\ is_failure_record ev = negb (fst item).
Proof.
  destruct item as [okay result]. unfold item_well_formed, load_item.
  cbn [fst snd].
  destruct (popitem result) as [[[action result'] rest]|e]; [|discriminate].
  destruct (getitem result' "_id") as [id|e] eqn:Hid; [|discriminate].
  intros _. unfold bind. cbn [lift ret out engine trace app]. rewrite Hid.
  cbn [lift ret out engine trace app percent_format].
  destruct okay; cbn; eexists; repeat split.
Qed.

(** The loop body over the items of one answer. *)
Lemma load_items_run index_name doc_type (items : list bulk_item) :
  forall (count : Z) (s : S),
    forallb item_well_formed items = true ->
    exists t,
      for_in items (load_item index_name doc_type) count s
      = Result (Return (count + Z.of_nat (length items)
                        - Z.of_nat (failures items))%Z) s t
      /\ forallb is_log t = true
      /\ processed t = length items
      /\ logged_failures t = failures items.
Proof.
  induction items as [|item items IH]; intros count s Hwf.
  - exists []. repeat split. cbn [for_in]. unfold ret.
    replace (count + Z.of_nat (length (@nil bulk_item))
             - Z.of_nat (failures []))%Z with count by (cbn; lia).
    reflexivity.
  - cbn [forallb] in Hwf. apply andb_true_iff in Hwf as [Hitem Hitems].
    destruct (load_item_run index_name doc_type item count s Hitem)
      as (ev & Hrun & Hlog & Hdoc & Hfail).
    destruct (IH (if fst item then count + 1 else count)%Z s Hitems)
      as (t & Hrest & Hlogs & Hproc & Hfails).
    exists (ev :: t). cbn [for_in].
    rewrite (bind_Return _ _ _ _ _ _ Hrun), Hrest. cbn [out engine trace app].
    repeat split.
    + f_equal. f_equal. unfold failures. cbn [List.filter length].
      destruct (fst item); cbn [negb length]; fold (failures items);
        pose proof (failures_le items); lia.
    + cbn [forallb]. now rewrite Hlog, Hlogs.
    + unfold processed in *. cbn [List.filter]. rewrite Hdoc. cbn [length].
      now rewrite Hproc.
    + unfold logged_failures, failures in *. cbn [List.filter]. rewrite Hfail.
      destruct (fst item); cbn [negb length]; now rewrite Hfails.
Qed.

Lemma failures_none (items : list bulk_item) :
  failures items = 0%nat ->
  succeeded items = items /\ failed_results items = [].
Proof.
  unfold failures, succeeded, failed_results.
  induction items as [|[okay result] items IH]; [split; reflexivity|].
  cbn [List.filter fst]. destruct okay; cbn [negb length].
  - intros H. destruct (IH H) as [-> ->]. split; reflexivity.
  - discriminate.
Qed.

Lemma answered_items_bulk es_client index doc_type chunk
    (items : list bulk_item) (t : list event) :
  answered_items (Request es_client (bulk index doc_type chunk) (inr items) :: t)
  = items ++ answered_items t.
Proof. reflexivity. Qed.

(** The loop over the chunks, when every request is answered, item for
    document, and no item is reported as failed: it goes through every
    document and ends with their number added to the count. *)
Lemma stream_run es_client index index_name doc_type (chunks : list (list pyval)) :
  forall (count : Z) (s : S),
    let r := for_in chunks
               (submit_chunk es_client index doc_type (load_item index_name doc_type))
               count s in
    all_answered (trace r) = true ->
    bulk_answers_well_formed (trace r) = true ->
    failures (answered_items (trace r)) = 0%nat ->
    out r = Return (count + Z.of_nat (length (concat chunks)))%Z
    /\ submitted_docs (trace r) = concat chunks
    /\ length (answered_items (trace r)) = length (concat chunks)
    /\ processed (trace r) = length (concat chunks)
    /\ logged_failures (trace r) = 0%nat.
Proof.
  induction chunks as [|chunk chunks IH]; intros count s r Hans Hwf Hk.
  - subst r. cbn [for_in concat length]. unfold ret. cbn [out trace].
    repeat split. f_equal. cbn. lia.
  - subst r. cbn [for_in] in *.
    set (body := submit_chunk es_client index doc_type
                   (load_item index_name doc_type)) in *.
    destruct (transport es_client (bulk index doc_type chunk) s)
      as [[e|items] s1] eqn:Ht.
    2: change (list bulk_item) in (type of items).
    { assert (Hsub : body chunk count s
                     = Result (Raise e) s1
                         [Request es_client (bulk index doc_type chunk) (inl e)])
        by (unfold body, submit_chunk; apply (bind_request_raise _ _ _ _ _ _ Ht)).
      rewrite (bind_Raise _ _ _ _ _ _ Hsub) in Hans. discriminate Hans. }
    set (rest := fun items : list bulk_item =>
                   bind (for_in (succeeded items) (load_item index_name doc_type) count)
                     (fun acc => match failed_results items with
                                 | [] => ret acc
                                 | errors => raise (BulkIndexError errors)
                                 end)).
    assert (Hsub : body chunk count s
                   = Result (out (rest items s1)) (engine (rest items s1))
                       (Request es_client (bulk index doc_type chunk) (inr items)
                        :: trace (rest items s1)))
      by (unfold body, submit_chunk;
          apply (bind_request_ok es_client (bulk index doc_type chunk) rest
                   _ _ _ Ht)).
    assert (Hitems : length items = length chunk
                     /\ forallb item_well_formed items = true).
    { rewrite trace_bind, Hsub in Hwf. cbn [trace app] in Hwf.
      unfold bulk_answers_well_formed in Hwf. cbn [forallb] in Hwf.
      apply andb_true_iff in Hwf as [Hhead _].
      unfold bulk_answer_well_formed in Hhead.
      cbn [request_of bulk_items_of] in Hhead.
      apply andb_true_iff in Hhead as [Hlen Hall].
      apply Nat.eqb_eq in Hlen. split; assumption. }
    destruct Hitems as [Hlen Hitems].
    assert (Hnone : failures items = 0%nat).
    { rewrite trace_bind, Hsub in Hk. cbn [trace app] in Hk.
      rewrite answered_items_bulk, failures_app in Hk. lia. }
    destruct (failures_none items Hnone) as [Hsucc Hfailed].
    destruct (load_items_run index_name doc_type items count s1 Hitems)
      as (t & Hrun & Hlogs & Hproc & Hfails).
    rewrite Hnone in Hrun, Hfails.
    assert (Hrest : rest items s1
                    = Result (Return (count + Z.of_nat (length items) - 0)%Z) s1 t).
    { unfold rest. rewrite Hsucc, Hfailed.
      rewrite (bind_Return _ _ _ _ _ _ Hrun). cbn [ret out engine trace].
      now rewrite app_nil_r. }
    rewrite Hrest in Hsub. cbn [out engine trace] in Hsub.
    rewrite (bind_Return _ _ _ _ _ _ Hsub) in Hans, Hwf, Hk |- *.
    cbn [out engine trace] in Hans, Hwf, Hk |- *.
    destruct (logs_only t Hlogs) as (L1 & L2 & L3 & L4).
    set (count' := (count + Z.of_nat (length items) - 0)%Z) in *.
    set (r' := for_in chunks body count' s1) in *.
    change ((Request es_client (bulk index doc_type chunk) (inr items) :: t)
            ++ trace r')
      with ([Request es_client (bulk index doc_type chunk) (inr items)]
            ++ t ++ trace r') in *.
    rewrite !all_answered_app in Hans. rewrite !bulk_answers_well_formed_app in Hwf.
    apply andb_true_iff in Hans as [_ [_ Hans]%andb_true_iff].
    apply andb_true_iff in Hwf as [_ [_ Hwf]%andb_true_iff].
    assert (Q1 : answered_items
                   [Request es_client (bulk index doc_type chunk) (inr items)]
                 = items) by apply app_nil_r.
    assert (Q2 : submitted_docs
                   [Request es_client (bulk index doc_type chunk) (inr items)]
                 = chunk) by apply app_nil_r.
    rewrite !answered_items_app, !failures_app, L1, Q1 in Hk.
    assert (Hk' : failures (answered_items (trace r')) = 0%nat) by lia.
    destruct (IH count' s1 Hans Hwf Hk') as (I1 & I2 & I3 & I4 & I5).
    fold r' in I1, I2, I3, I4, I5.
    rewrite !answered_items_app, !submitted_docs_app, !processed_app,
      !logged_failures_app, !length_app, L1, L2, I2, I3, I4, I5,
      Hproc, Hfails.
    cbn [concat]. rewrite length_app.
    rewrite !Q1, !Q2.
    change (processed [Request es_client (bulk index doc_type chunk) (inr items)])
      with 0%nat.
    change (logged_failures
              [Request es_client (bulk index doc_type chunk) (inr items)])
      with 0%nat.
    cbn [length].
    repeat split; try lia.
    rewrite I1. f_equal. unfold count'. lia.
Qed.

(** *** Outside the loop *)

Lemma no_document_only (t : list event) :
  Forall (fun ev => no_document ev = true) t ->
  answered_items t = [] /\ submitted_docs t = []
  /\ processed t = 0%nat /\ logged_failures t = 0%nat
  /\ bulk_answers_well_formed t = true.
Proof.
  induction 1 as [|ev t Hev _ IH]; [repeat split|].
  destruct IH as (I1 & I2 & I3 & I4 & I5).
  unfold no_document in Hev. apply andb_true_iff in Hev as [Hdoc Hreq].
  apply negb_true_iff in Hdoc.
  assert (Hfail : is_failure_record ev = false)
    by (unfold is_document_record in Hdoc; now apply orb_false_iff in Hdoc).
  unfold answered_items, submitted_docs, processed, logged_failures,
    bulk_answers_well_formed in *.
  cbn [map concat List.filter forallb]. rewrite Hdoc, Hfail, I1, I2, I3, I4, I5.
  destruct ev as [c q a|lvl msg args]; [|repeat split].
  cbn [request_of] in Hreq. apply negb_true_iff in Hreq.
  destruct q; try discriminate; repeat split.
Qed.

Lemma emits_ret {A} P (a : A) : emits P (ret a).
Proof. intros s. constructor. Qed.

Lemma emits_raise {A} P e : emits P (@raise A e).
Proof. intros s. constructor. Qed.

Lemma emits_logger (P : event -> Prop) lvl msg args :
  P (Log lvl msg args) -> emits P (logger lvl msg args).
Proof. intros HP s. repeat constructor. exact HP. Qed.

Lemma emits_request (P : event -> Prop) es_client q :
  (forall a, P (Request es_client q a)) -> emits P (request es_client q).
Proof.
  intros HP s. unfold request. destruct (transport es_client q s) as [a s1].
  cbn [trace]. repeat constructor. apply HP.
Qed.

Lemma emits_bind {A B} P (m : M A) (f : A -> M B) :
  emits P m -> (forall a, emits P (f a)) -> emits P (bind m f).
Proof.
  intros Hm Hf s. rewrite trace_bind. apply Forall_app. split; [apply Hm|].
  destruct (out (m s)); [apply Hf | constructor].
Qed.

Lemma emits_try_except {A} P (body handler : M A) :
  emits P body -> emits P handler ->
  emits P (try_except_ESConnectionError body handler).
Proof.
  intros Hb Hh s. specialize (Hb s). unfold try_except_ESConnectionError.
  destruct (body s) as [[a|e] s1 t1]; cbn [out engine trace] in *; [exact Hb|].
  destruct e; try exact Hb. cbn [trace].
  apply Forall_app. split; [exact Hb | apply Hh].
Qed.

Lemma completes_ret {A} (a : A) : completes (ret a).
Proof. intros s _. now exists a. Qed.

Lemma completes_logger lvl msg args : completes (logger lvl msg args).
Proof. intros s _. now exists tt. Qed.

Lemma completes_request es_client q : completes (request es_client q).
Proof.
  intros s. unfold request. destruct (transport es_client q s) as [[e|v] s1].
  - discriminate.
  - intros _. now exists v.
Qed.

Lemma completes_bind {A B} (m : M A) (f : A -> M B) :
  completes m -> (forall a, completes (f a)) -> completes (bind m f).
Proof.
  intros Hm Hf s. rewrite trace_bind, out_bind, all_answered_app.
  intros [H1 H2]%andb_true_iff. destruct (Hm s H1) as [a Ha].
  rewrite Ha in *. now apply Hf.
Qed.

Lemma completes_try_except {A} (body : M A) lvl msg args E :
  completes body ->
  completes (try_except_ESConnectionError body
               (bind (logger lvl msg args) (fun _ => raise E))).
Proof.
  intros Hb s. specialize (Hb s). unfold try_except_ESConnectionError.
  destruct (body s) as [[a|e] s1 t1]; cbn [out engine trace] in *; [exact Hb|].
  destruct e; try exact Hb. cbn [out trace]. rewrite all_answered_app.
  intros [H1 _]%andb_true_iff. destruct (Hb H1) as [a Ha]. discriminate.
Qed.

Hint Resolve emits_ret emits_raise emits_bind emits_try_except
     completes_ret completes_logger completes_request completes_bind
     completes_try_except : guard.

(** [create_index] has no part in the loop. *)
Lemma create_index_no_document app_name index_name mapping es_host es_client t :
  emits (fun ev => no_document ev = true)
        (create_index app_name index_name mapping es_host es_client t).
Proof.
  unfold create_index. rewrite get_scoped_index_name_eq. cbn [lift].
  apply emits_bind; [apply emits_ret|intros scoped].
  apply emits_try_except.
  - apply emits_bind; [now apply emits_request|intros _].
    apply emits_bind; [now apply emits_request|intros exists_].
    apply emits_bind; [|auto with guard].
    destruct exists_; cbn [negb]; [now apply emits_logger|].
    apply emits_bind; [now apply emits_request|intros has_template].
    apply emits_bind.
    + destruct has_template; cbn [negb]; [auto with guard|].
      apply emits_bind; [now apply emits_request|auto with guard].
    + intros _. apply emits_bind; [now apply emits_logger|intros _].
      apply emits_bind; [now apply emits_request|auto with guard].
  - apply emits_bind; [now apply emits_logger|auto with guard].
Qed.

Lemma create_index_completes app_name index_name mapping es_host es_client t :
  completes (create_index app_name index_name mapping es_host es_client t).
Proof.
  unfold create_index. rewrite get_scoped_index_name_eq. cbn [lift].
  apply completes_bind; [apply completes_ret|intros scoped].
  apply completes_try_except.
  apply completes_bind; [auto with guard|intros _].
  apply completes_bind; [auto with guard|intros exists_].
  apply completes_bind; [|auto with guard].
  destruct exists_; cbn [negb]; [auto with guard|].
  apply completes_bind; [auto with guard|intros has_template].
  apply completes_bind; [destruct has_template; cbn [negb]; auto with guard|].
  auto 10 with guard.
Qed.

Lemma trace_try_except {A} (body : M A) lvl msg args E (s : S) :
  exists extra,
    trace (try_except_ESConnectionError body
             (bind (logger lvl msg args) (fun _ => raise E)) s)
    = trace (body s) ++ extra.
Proof.
  unfold try_except_ESConnectionError.
  destruct (body s) as [[a|e] s1 t]; cbn [out trace].
  - exists []. now rewrite app_nil_r.
  - destruct e; try (exists []; now rewrite app_nil_r).
    eexists. reflexivity.
Qed.

Lemma no_failures_app (t1 t2 : list event) :
  failures (answered_items (t1 ++ t2)) = 0%nat ->
  failures (answered_items t1) = 0%nat /\ failures (answered_items t2) = 0%nat.
Proof. rewrite answered_items_app, failures_app. lia. Qed.

(** The run of [load_index] when every request is answered, item for
    document, and no item is reported as failed: what comes before the
    loop, the loop, the record of the count. *)
Lemma load_index_run
    (app_name index_name : string) (docs : list pyval) (mapping : pyval)
    (doc_type : string) (es_host : option string)
    (es_client : option Elasticsearch) (connect_timeout : Z) (s : S) :
  let r := load_index app_name index_name docs mapping doc_type es_host es_client
             connect_timeout s in
  all_answered (trace r) = true ->
  bulk_answers_well_formed (trace r) = true ->
  failures (answered_items (trace r)) = 0%nat ->
  exists (before : list event) (s3 : S) (count : Z),
    let loop := for_in (chunked 50 docs)
                  (submit_chunk (client_or es_client es_host)
                     (app_name +:+ String "$" index_name) doc_type
                     (load_item index_name doc_type)) 0%Z s3 in
    Forall (fun ev => no_document ev = true) before
    /\ all_answered (trace loop) = true
    /\ bulk_answers_well_formed (trace loop) = true
    /\ failures (answered_items (trace loop)) = 0%nat
    /\ out loop = Return count
    /\ out r = Return VNone
    /\ trace r
       = before ++ trace loop
         ++ [Log INFO "Loaded %s document%s"
               [VInt count; VStr (if (count =? 1)%Z then EmptyString else "s")]].
Proof.
  intros r. subst r. unfold load_index. rewrite get_scoped_index_name_eq.
  cbn [lift]. rewrite bind_ret_eq. cbn [out engine trace]. lazy beta.
  set (client := client_or es_client es_host).
  set (scoped := app_name +:+ String "$" index_name).
  match goal with
  | |- context [try_except_ESConnectionError ?b ?h s] =>
      set (body := b); set (handler := h)
  end.
  intros Hans Hwf Hk.
  destruct (trace_try_except body ERROR
              ("Unable to connect to Elasticsearch cluster at "
               +:+ py_repr (opt_str es_host)) []
              (KnowledgeBaseConnectionError (Some (transport_hosts client))) s)
    as [extra Hextra].
  fold handler in Hextra. rewrite Hextra in Hans, Hwf, Hk.
  rewrite all_answered_app in Hans. rewrite bulk_answers_well_formed_app in Hwf.
  apply andb_true_iff in Hans as [Hans _]. apply andb_true_iff in Hwf as [Hwf _].
  apply no_failures_app in Hk as [Hk _].
  clear Hextra extra.
  destruct (transport client (cluster_health connect_timeout) s)
    as [[e|health] s1] eqn:H1.
  { unfold body in Hans. rewrite (bind_request_raise _ _ _ _ _ _ H1) in Hans.
    discriminate Hans. }
  destruct (transport client (indices_exists scoped) s1) as [[e|exists_] s2] eqn:H2.
  { unfold body in Hans. rewrite (bind_request_ok _ _ _ _ _ _ H1) in Hans.
    cbn [trace] in Hans. rewrite (bind_request_raise _ _ _ _ _ _ H2) in Hans.
    discriminate Hans. }
  change bool in (type of exists_).
  assert (Hbody := eq_refl (body s)). unfold body at 2 in Hbody.
  rewrite (probe_and_exists _ _ _ _ _ _ _ _ _ H1 H2) in Hbody. lazy beta in Hbody.
  match type of Hbody with
  | context [bind ?p ?k s2] => set (pre := p) in *; set (tail := k) in *
  end.
  assert (Hpre : completes pre
                 /\ emits (fun ev => no_document ev = true) pre).
  { subst pre. destruct exists_.
    - split; [apply completes_logger | now apply emits_logger].
    - split.
      + apply completes_bind; [apply create_index_completes | auto with guard].
      + apply emits_bind; [apply create_index_no_document | auto with guard]. }
  destruct Hpre as [Hpre1 Hpre2].
  rewrite Hbody in Hans, Hwf, Hk. cbn [trace] in Hans, Hwf, Hk.
  rewrite trace_bind in Hans, Hwf, Hk.
  change (?a :: ?b :: ?t ++ ?u) with ([a; b] ++ t ++ u) in Hans, Hwf, Hk.
  rewrite !all_answered_app in Hans. rewrite !bulk_answers_well_formed_app in Hwf.
  apply andb_true_iff in Hans as [_ [Hans3 Hans]%andb_true_iff].
  apply andb_true_iff in Hwf as [_ [_ Hwf]%andb_true_iff].
  apply no_failures_app in Hk as [_ Hk]. apply no_failures_app in Hk as [_ Hk].
  destruct (Hpre1 s2 Hans3) as [u Hu]. specialize (Hpre2 s2).
  destruct (pre s2) as [o3 s3 t3] eqn:HP. cbn [out engine trace] in *. subst o3.
  rewrite (bind_Return _ _ _ _ _ _ HP) in Hbody. cbn [out engine trace] in Hbody.
  subst tail. lazy beta in Hans, Hwf, Hk, Hbody.
  unfold for_streaming_bulk in Hans, Hwf, Hk, Hbody.
  match type of Hbody with
  | context [bind ?l ?k s3] => set (loop := l) in *; set (final := k) in *
  end.
  rewrite trace_bind in Hans, Hwf, Hk.
  rewrite all_answered_app in Hans. rewrite bulk_answers_well_formed_app in Hwf.
  apply andb_true_iff in Hans as [Hans _]. apply andb_true_iff in Hwf as [Hwf _].
  apply no_failures_app in Hk as [Hk _].
  destruct (stream_run client scoped index_name doc_type (chunked 50 docs)
              0%Z s3 Hans Hwf Hk) as (Hout & _).
  fold loop in Hout.
  set (count := (0 + Z.of_nat (length (concat (chunked 50 docs))))%Z) in *.
  exists ([Request client (cluster_health connect_timeout) (inr health);
           Request client (indices_exists scoped) (inr exists_)] ++ t3), s3, count.
  cbn zeta. fold loop.
  assert (Hfinal : bind loop final s3
                   = Result (Return VNone) (engine (loop s3))
                       (trace (loop s3)
                        ++ [Log INFO "Loaded %s document%s"
                              [VInt count;
                               VStr (if (count =? 1)%Z then EmptyString else "s")]])).
  { unfold bind at 1. rewrite Hout. reflexivity. }
  rewrite Hfinal in Hbody. cbn [out engine trace] in Hbody.
  rewrite (try_except_Return _ _ _ _ _ _ Hbody). cbn [out trace].
  repeat split; try assumption.
  apply Forall_app. split; [repeat constructor | exact Hpre2].
Qed.

(** C1, as the code has it by design: when the engine answers every request
    of a load of N documents, with one result for each document of a bulk
    request, and reports none of them as failed, [load_index] submits all N
    documents and goes through all N results, each one counted and logged
    as loaded; the count of successes it logs at the end is N. The call
    itself returns [None], not the count. *)
Theorem load_index_logs_success_count
    (app_name index_name : string) (docs : list pyval) (mapping : pyval)
    (doc_type : string) (es_host : option string)
    (es_client : option Elasticsearch) (connect_timeout : Z) (s : S) :
  let r := load_index app_name index_name docs mapping doc_type es_host es_client
             connect_timeout s in
  let N := length docs in
  let K := failures (answered_items (trace r)) in
  let count := Z.of_nat N in
  all_answered (trace r) = true ->
  bulk_answers_well_formed (trace r) = true ->
  K = 0%nat ->
  submitted_docs (trace r) = docs
  /\ length (answered_items (trace r)) = N
  /\ processed (trace r) = N
  /\ logged_failures (trace r) = 0%nat
  /\ last (trace r)
     = Some (Log INFO "Loaded %s document%s"
               [VInt count; VStr (if (count =? 1)%Z then EmptyString else "s")])
  /\ out r = Return VNone.
Proof.
  intros r N K count Hans Hwf Hk.
  destruct (load_index_run app_name index_name docs mapping doc_type es_host
              es_client connect_timeout s Hans Hwf Hk)
    as (before & s3 & c & Hbefore & Hans' & Hwf' & Hk' & Hout & Hret & Htrace).
  cbn zeta in *. fold r in Hret, Htrace.
  destruct (stream_run _ _ _ _ _ _ _ Hans' Hwf' Hk') as (Hc & L2 & L3 & L4 & L5).
  rewrite chunked_concat in Hc, L2, L3, L4 by lia.
  destruct (no_document_only before Hbefore) as (B1 & B2 & B3 & B4 & _).
  rewrite Hout in Hc. injection Hc as ->.
  rewrite Htrace, !answered_items_app, !submitted_docs_app, !processed_app,
    !logged_failures_app, !length_app, B1, B2, B3, B4, L2, L3, L4, L5.
  repeat split.
  - cbn [app]. apply app_nil_r.
  - cbn. lia.
  - cbn. lia.
  - rewrite app_assoc, last_snoc. fold N. now rewrite Z.add_0_l.
  - exact Hret.
Qed.

(** ** The existence check and the field enumeration *)

(** [does_index_exist] returns the answer of the engine: with the probe
    answered, its value is what [indices.exists] says of the scoped name; it
    sends these two requests and logs nothing. *)
Theorem does_index_exist_answers
    (app_name index_name : string) (es_host : option string)
    (es_client : option Elasticsearch) (connect_timeout : Z)
    (s s1 s2 : S) (health : pyval) (exists_ : bool) :
  let client := client_or es_client es_host in
  let scoped := app_name +:+ String "$" index_name in
  transport client (cluster_health connect_timeout) s = (inr health, s1) ->
  transport client (indices_exists scoped) s1 = (inr exists_, s2) ->
  does_index_exist app_name index_name es_host es_client connect_timeout s
  = Result (Return exists_) s2
      [Request client (cluster_health connect_timeout) (inr health);
       Request client (indices_exists scoped) (inr exists_)].
Proof.
  intros client scoped H1 H2.
  unfold does_index_exist. rewrite get_scoped_index_name_eq.
  cbn [lift]. rewrite bind_ret_eq. fold client. fold scoped.
  assert (Hbody :
    bind (request client (cluster_health connect_timeout))
         (fun _ => request client (indices_exists scoped)) s
    = Result (Return exists_) s2
        [Request client (cluster_health connect_timeout) (inr health);
         Request client (indices_exists scoped) (inr exists_)]).
  { rewrite (bind_request_ok _ _ _ _ _ _ H1). cbn [out engine trace].
    unfold request. rewrite H2. reflexivity. }
  rewrite (try_except_Return _ _ _ _ _ _ Hbody). reflexivity.
Qed.

(** The lookups of [get_field_names] in the answer of [indices.get]. *)
Lemma get_field_names_run
    (app_name index_name : string) (es_host : option string)
    (es_client : option Elasticsearch) (connect_timeout : Z)
    (s s1 s2 : S) (health res : pyval) (o : outcome (list string)) :
  let client := client_or es_client es_host in
  let scoped := app_name +:+ String "$" index_name in
  transport client (cluster_health connect_timeout) s = (inr health, s1) ->
  transport client (indices_get scoped) s1 = (inr res, s2) ->
  (forall info, o <> Raise (ESConnectionError info)) ->
  bind (lift (getitem res scoped)) (fun of_index =>
    bind (lift (getitem of_index "mappings")) (fun mappings =>
      bind (lift (getitem mappings "document")) (fun document =>
        bind (lift (getitem document "properties")) (fun all_field_info =>
          lift (keys all_field_info))))) s2
  = Result o s2 [] ->
  get_field_names app_name index_name es_host es_client connect_timeout s
  = Result o s2
      [Request client (cluster_health connect_timeout) (inr health);
       Request client (indices_get scoped) (inr res)].
Proof.
  intros client scoped H1 H2 Ho Hlook.
  unfold get_field_names. rewrite get_scoped_index_name_eq.
  cbn [lift]. rewrite bind_ret_eq. fold client. fold scoped.
  match goal with
  | |- context [try_except_ESConnectionError ?b ?h s] => set (body := b)
  end.
  assert (Hbody : body s
    = Result o s2
        [Request client (cluster_health connect_timeout) (inr health);
         Request client (indices_get scoped) (inr res)]).
  { subst body. rewrite (bind_request_ok _ _ _ _ _ _ H1). cbn [out engine trace].
    rewrite (bind_request_ok _ _ _ _ _ _ H2). rewrite Hlook. reflexivity. }
  destruct o as [names|e].
  - rewrite (try_except_Return _ _ _ _ _ _ Hbody). reflexivity.
  - assert (He : is_connection_error e = false).
    { destruct e; try reflexivity. exfalso. now apply (Ho info). }
    rewrite (try_except_passed _ _ _ _ _ _ Hbody He). reflexivity.
Qed.

(** [get_field_names] returns the keys of the properties of the document
    type of the scoped index, in the order of the mapping. *)
Theorem get_field_names_lists_properties
    (app_name index_name : string) (es_host : option string)
    (es_client : option Elasticsearch) (connect_timeout : Z)
    (s s1 s2 : S) (health res of_index mappings document : pyval) (properties : dict) :
  let client := client_or es_client es_host in
  let scoped := app_name +:+ String "$" index_name in
  transport client (cluster_health connect_timeout) s = (inr health, s1) ->
  transport client (indices_get scoped) s1 = (inr res, s2) ->
  getitem res scoped = Return of_index ->
  getitem of_index "mappings" = Return mappings ->
  getitem mappings "document" = Return document ->
  getitem document "properties" = Return (VDict properties) ->
  get_field_names app_name index_name es_host es_client connect_timeout s
  = Result (Return (map fst properties)) s2
      [Request client (cluster_health connect_timeout) (inr health);
       Request client (indices_get scoped) (inr res)].
Proof.
  intros client scoped H1 H2 G1 G2 G3 G4.
  apply (get_field_names_run app_name index_name es_host es_client connect_timeout
           s s1 s2 health res (Return (map fst properties)) H1 H2);
    [discriminate|].
  fold scoped. rewrite G1. cbn [lift]. rewrite bind_ret_eq. cbn [out engine trace].
  rewrite G2. cbn [lift]. rewrite bind_ret_eq. cbn [out engine trace].
  rewrite G3. cbn [lift]. rewrite bind_ret_eq. cbn [out engine trace].
  rewrite G4. reflexivity.
Qed.

(** An index whose mapping has no [document] type: [get_field_names] raises
    the [KeyError] of the lookup, and no connectivity error or empty list
    stands in for it. *)
Theorem get_field_names_without_document_type
    (app_name index_name : string) (es_host : option string)
    (es_client : option Elasticsearch) (connect_timeout : Z)
    (s s1 s2 : S) (health res of_index : pyval) (mappings : dict) :
  let client := client_or es_client es_host in
  let scoped := app_name +:+ String "$" index_name in
  transport client (cluster_health connect_timeout) s = (inr health, s1) ->
  transport client (indices_get scoped) s1 = (inr res, s2) ->
  getitem res scoped = Return of_index ->
  getitem of_index "mappings" = Return (VDict mappings) ->
  ~ In "document" (map fst mappings) ->
  get_field_names app_name index_name es_host es_client connect_timeout s
  = Result (Raise (KeyError "document")) s2
      [Request client (cluster_health connect_timeout) (inr health);
       Request client (indices_get scoped) (inr res)].
Proof.
  intros client scoped H1 H2 G1 G2 Hno.
  assert (G3 : getitem (VDict mappings) "document" = Raise (KeyError "document")).
  { cbn [getitem]. clear -Hno. induction mappings as [|[k v] d IH]; [reflexivity|].
    cbn [dict_getitem]. destruct (String.eqb_spec k "document") as [->|Hne].
    - exfalso. apply Hno. now left.
    - apply IH. intros Hin. apply Hno. now right. }
  apply (get_field_names_run app_name index_name es_host es_client connect_timeout
           s s1 s2 health res (Raise (KeyError "document")) H1 H2);
    [discriminate|].
  fold scoped. rewrite G1. cbn [lift]. rewrite bind_ret_eq. cbn [out engine trace].
  rewrite G2. cbn [lift]. rewrite bind_ret_eq. cbn [out engine trace].
  rewrite G3. reflexivity.
Qed.

(** ** Errors of the engine that are not connection errors *)

(** A [try] that starts with the health probe, when the probe raises
    something else than a connection error. *)
Lemma probe_raises {A} es_client t (K : pyval -> M A) (handler : M A)
    (s s' : S) e :
  transport es_client (cluster_health t) s = (inl e, s') ->
  is_connection_error e = false ->
  try_except_ESConnectionError
    (bind (request es_client (cluster_health t)) K) handler s
  = Result (Raise e) s' [Request es_client (cluster_health t) (inl e)].
Proof.
  intros H He. apply try_except_passed; [|exact He].
  now apply bind_request_raise.
Qed.

(** Only connection errors are translated: when the health probe raises
    another exception of the engine (a refused authentication, say), every
    operation raises that very exception, logs nothing and sends nothing
    else. *)
Theorem other_error_of_probe_propagates (op : operation) (s s' : S) (e : exn) :
  transport (client_of op) (cluster_health (timeout_of op)) s = (inl e, s') ->
  is_connection_error e = false ->
  perform op s
  = Result (Raise e) s'
      [Request (client_of op) (cluster_health (timeout_of op)) (inl e)].
Proof.
  intros H He. unfold client_of in *.
  destruct op; cbn [es_client_of es_host_of timeout_of] in *; unfold perform.
  - apply bind_Raise. unfold does_index_exist.
    rewrite get_scoped_index_name_eq. cbn [lift]. rewrite bind_ret_eq.
    rewrite (probe_raises _ _ _ _ _ _ _ H He). reflexivity.
  - apply bind_Raise. unfold get_field_names.
    rewrite get_scoped_index_name_eq. cbn [lift]. rewrite bind_ret_eq.
    rewrite (probe_raises _ _ _ _ _ _ _ H He). reflexivity.
  - unfold create_index.
    rewrite get_scoped_index_name_eq. cbn [lift]. rewrite bind_ret_eq.
    rewrite (probe_raises _ _ _ _ _ _ _ H He). reflexivity.
  - unfold delete_index.
    rewrite get_scoped_index_name_eq. cbn [lift]. rewrite bind_ret_eq.
    rewrite (probe_raises _ _ _ _ _ _ _ H He). reflexivity.
  - unfold load_index.
    rewrite get_scoped_index_name_eq. cbn [lift]. rewrite bind_ret_eq.
    rewrite (probe_raises _ _ _ _ _ _ _ H He). reflexivity.
Qed.

(** ** Index creation *)

(** [create_index] on a scoped index that does not exist: it asks for the
    default template, puts it only if it is absent, logs, and then creates
    the scoped index with the mapping it was given. It returns when the
    engine has answered the creation; an exception of the creation that is
    not a connection error (the index was created in between, say) is
    raised as it is. *)
Theorem create_index_provisions_template_then_creates
    (app_name index_name : string) (mapping : pyval) (es_host : option string)
    (es_client : option Elasticsearch) (connect_timeout : Z)
    (s s1 s2 s3 s4 : S) (health : pyval) (has_template : bool) :
  let client := client_or es_client es_host in
  let scoped := app_name +:+ String "$" index_name in
  let r := create_index app_name index_name mapping es_host es_client
             connect_timeout s in
  let creation := transport client (indices_create scoped mapping) s4 in
  transport client (cluster_health connect_timeout) s = (inr health, s1) ->
  transport client (indices_exists scoped) s1 = (inr false, s2) ->
  transport client (indices_exists_template DEFAULT_ES_INDEX_TEMPLATE_NAME) s2
  = (inr has_template, s3) ->
  (if has_template then s4 = s3
   else exists v,
     transport client
       (indices_put_template DEFAULT_ES_INDEX_TEMPLATE_NAME DEFAULT_ES_INDEX_TEMPLATE) s3
     = (inr v, s4)) ->
  requests_of (trace r)
  = [cluster_health connect_timeout; indices_exists scoped;
     indices_exists_template DEFAULT_ES_INDEX_TEMPLATE_NAME]
    ++ (if has_template then []
        else [indices_put_template DEFAULT_ES_INDEX_TEMPLATE_NAME
                                   DEFAULT_ES_INDEX_TEMPLATE])
    ++ [indices_create scoped mapping]
  /\ engine r = snd creation
  /\ out r = match fst creation with
             | inr _ => Return VNone
             | inl (ESConnectionError _) =>
                 Raise (KnowledgeBaseConnectionError (Some (transport_hosts client)))
             | inl e => Raise e
             end.
Proof.
  intros client scoped r creation H1 H2 H3 H4. subst r.
  unfold create_index. rewrite get_scoped_index_name_eq.
  cbn [lift]. rewrite bind_ret_eq. cbn [out engine trace]. lazy beta.
  fold client. fold scoped.
  match goal with
  | |- context [try_except_ESConnectionError ?b ?h s] => set (body := b)
  end.
  set (before :=
         [Request client (cluster_health connect_timeout) (inr health);
          Request client (indices_exists scoped) (inr false);
          Request client (indices_exists_template DEFAULT_ES_INDEX_TEMPLATE_NAME)
            (inr has_template)]).
  assert (Hput : exists t,
            bind (if negb has_template
                  then bind (request client
                               (indices_put_template DEFAULT_ES_INDEX_TEMPLATE_NAME
                                  DEFAULT_ES_INDEX_TEMPLATE))
                            (fun _ => ret tt)
                  else ret tt)
                 (fun _ =>
                    bind (logger INFO "Creating index %r" [VStr index_name])
                      (fun _ => bind (request client (indices_create scoped mapping))
                                  (fun _ => ret tt))) s3
            = Result (match fst creation with inr _ => Return tt | inl e => Raise e end)
                (snd creation)
                (t ++ [Log INFO "Creating index %r" [VStr index_name];
                       Request client (indices_create scoped mapping) (fst creation)])
            /\ requests_of t
               = if has_template then []
                 else [indices_put_template DEFAULT_ES_INDEX_TEMPLATE_NAME
                         DEFAULT_ES_INDEX_TEMPLATE]).
  { assert (Hcreate :
      bind (logger INFO "Creating index %r" [VStr index_name])
        (fun _ => bind (request client (indices_create scoped mapping))
                    (fun _ => ret tt)) s4
      = Result (match fst creation with inr _ => Return tt | inl e => Raise e end)
          (snd creation)
          [Log INFO "Creating index %r" [VStr index_name];
           Request client (indices_create scoped mapping) (fst creation)]).
    { rewrite bind_logger_eq. subst creation.
      destruct (transport client (indices_create scoped mapping) s4)
        as [[e|v] s5] eqn:H5; cbn [fst snd].
      - rewrite (bind_request_raise _ _ _ _ _ _ H5). reflexivity.
      - rewrite (bind_request_ok _ _ _ _ _ _ H5). reflexivity. }
    destruct has_template; cbn [negb].
    - subst s4. exists []. split; [|reflexivity].
      rewrite bind_ret_eq, Hcreate. reflexivity.
    - destruct H4 as [v H4].
      exists [Request client
                (indices_put_template DEFAULT_ES_INDEX_TEMPLATE_NAME
                   DEFAULT_ES_INDEX_TEMPLATE) (inr v)].
      split; [|reflexivity].
      assert (Hp : bind (request client
                           (indices_put_template DEFAULT_ES_INDEX_TEMPLATE_NAME
                              DEFAULT_ES_INDEX_TEMPLATE)) (fun _ => ret tt) s3
                   = Result (Return tt) s4
                       [Request client
                          (indices_put_template DEFAULT_ES_INDEX_TEMPLATE_NAME
                             DEFAULT_ES_INDEX_TEMPLATE) (inr v)])
        by (rewrite (bind_request_ok _ _ _ _ _ _ H4); reflexivity).
      rewrite (bind_Return _ _ _ _ _ _ Hp), Hcreate. reflexivity. }
  destruct Hput as (t & Hput & Ht).
  assert (Hbody :
    body s
    = Result (match fst creation with inr _ => Return VNone | inl e => Raise e end)
        (snd creation)
        (before ++ t
         ++ [Log INFO "Creating index %r" [VStr index_name];
             Request client (indices_create scoped mapping) (fst creation)])).
  { subst body. rewrite (probe_and_exists _ _ _ _ _ _ _ _ _ H1 H2).
    lazy beta iota. cbn [negb].
    assert (Hinner :
      bind (request client (indices_exists_template DEFAULT_ES_INDEX_TEMPLATE_NAME))
        (fun has_template : bool =>
           bind (if negb has_template
                 then bind (request client
                              (indices_put_template DEFAULT_ES_INDEX_TEMPLATE_NAME
                                 DEFAULT_ES_INDEX_TEMPLATE))
                           (fun _ => ret tt)
                 else ret tt)
                (fun _ =>
                   bind (logger INFO "Creating index %r" [VStr index_name])
                     (fun _ => bind (request client (indices_create scoped mapping))
                                 (fun _ => ret tt)))) s2
      = Result (match fst creation with inr _ => Return tt | inl e => Raise e end)
          (snd creation)
          (Request client (indices_exists_template DEFAULT_ES_INDEX_TEMPLATE_NAME)
             (inr has_template)
           :: t ++ [Log INFO "Creating index %r" [VStr index_name];
                    Request client (indices_create scoped mapping) (fst creation)])).
    { rewrite (bind_request_ok _ _ _ _ _ _ H3). rewrite Hput. reflexivity. }
    destruct (fst creation) as [e|v] eqn:Hc.
    - rewrite (bind_Raise _ _ _ _ _ _ Hinner). reflexivity.
    - rewrite (bind_Return _ _ _ _ _ _ Hinner). cbn [ret out engine trace].
      now rewrite app_nil_r. }
  assert (Hreq : forall extra,
            requests_of extra = [] ->
            requests_of ((before ++ t
              ++ [Log INFO "Creating index %r" [VStr index_name];
                  Request client (indices_create scoped mapping) (fst creation)])
              ++ extra)
            = [cluster_health connect_timeout; indices_exists scoped;
               indices_exists_template DEFAULT_ES_INDEX_TEMPLATE_NAME]
              ++ (if has_template then []
                  else [indices_put_template DEFAULT_ES_INDEX_TEMPLATE_NAME
                          DEFAULT_ES_INDEX_TEMPLATE])
              ++ [indices_create scoped mapping]).
  { intros extra Hextra. rewrite !requests_of_app, Ht, Hextra.
    now rewrite app_nil_r. }
  destruct (fst creation) as [e|v] eqn:Hc.
  - destruct (is_connection_error e) eqn:He.
    + destruct e; try discriminate.
      rewrite (try_except_caught _ _ _ _ _ _ _ _ _ Hbody). cbn [out engine trace].
      split; [now apply Hreq|]. split; reflexivity.
    + rewrite (try_except_passed _ _ _ _ _ _ Hbody He). cbn [out engine trace].
      split; [rewrite <- (app_nil_r (before ++ _)); now apply Hreq|].
      split; [reflexivity|]. destruct e; try reflexivity. discriminate.
  - rewrite (try_except_Return _ _ _ _ _ _ Hbody). cbn [out engine trace].
    split; [rewrite <- (app_nil_r (before ++ _)); now apply Hreq|].
    split; reflexivity.
Qed.

(** ** More on scoped names *)

Lemma append_assoc (a b c : string) : (a +:+ b) +:+ c = a +:+ (b +:+ c).
Proof.
  induction a as [|x a IH]; [reflexivity|].
  change (String x ((a +:+ b) +:+ c) = String x (a +:+ (b +:+ c))).
  now rewrite IH.
Qed.

(** Names that contain the separator collide: the application [a$b] with the
    index [c] has the scoped name of the application [a] with the index
    [b$c]. *)
Theorem scoped_names_collide_on_separator (a b c : string) :
  get_scoped_index_name (a +:+ String "$" b) c
  = get_scoped_index_name a (b +:+ String "$" c).
Proof.
  rewrite !get_scoped_index_name_eq. f_equal.
  rewrite append_assoc. reflexivity.
Qed.

(** For the scoped name to determine both names it is enough that the
    application names have no separator; the index names may have one. *)
Theorem scoped_name_determines_names (a1 i1 a2 i2 : string) :
  contains_separator a1 = false ->
  contains_separator a2 = false ->
  get_scoped_index_name a1 i1 = get_scoped_index_name a2 i2 ->
  a1 = a2 /\ i1 = i2.
Proof.
  intros H1 H2. rewrite !get_scoped_index_name_eq. intros [= Heq].
  now apply scoped_name_split.
Qed.

(** ** One result of a bulk request *)

(** The loop body of [load_index] on the result of one action whose [_id] is
    a string: a success adds one to the count and is logged at debug level, a
    failure leaves the count and is logged as an error with the action, the
    path and the payload. The path of the document is made of the index name
    as the caller gave it, not of the scoped one. *)
Theorem load_item_records
    (index_name doc_type action id : string) (okay : bool) (result : dict)
    (count : Z) (s : S) :
  dict_getitem result "_id" = Return (VStr id) ->
  let path := "/" +:+ index_name +:+ "/" +:+ doc_type +:+ "/" +:+ id in
  load_item index_name doc_type (okay, [(action, VDict result)]) count s
  = if okay
    then Result (Return (count + 1)%Z) s
           [Log DEBUG "Loaded document: %s" [VStr path]]
    else Result (Return count) s
           [Log ERROR "Failed to %s document %s: %r"
              [VStr action; VStr path; VDict result]].
Proof.
  intros Hid path. unfold load_item. cbn [popitem last removelast lift].
  rewrite bind_ret_eq. cbn [getitem]. rewrite Hid. cbn [lift].
  rewrite bind_ret_eq. cbn [py_str percent_format Ascii.eqb Bool.eqb lift].
  destruct okay; cbn [negb]; rewrite bind_ret_eq, bind_logger_eq;
    cbn [ret out engine trace]; rewrite append_empty_r; reflexivity.
Qed.

(** ** The discipline of the operations *)

Lemma logs_all_answered (t : list event) :
  forallb is_log t = true -> all_answered t = true.
Proof. intros H. now destruct (logs_only t H) as (_ & _ & H3 & _). Qed.

Lemma stops_at_failure_answered (t1 t2 : list event) :
  all_answered t1 = true ->
  stops_at_failure (t1 ++ t2) = stops_at_failure t2.
Proof.
  induction t1 as [|ev t1 IH]; [reflexivity|].
  unfold all_answered. cbn [forallb app stops_at_failure].
  destruct (raised_by ev); [discriminate|]. exact IH.
Qed.

Lemma stops_at_failure_logs (t1 t2 : list event) :
  stops_at_failure t1 = true ->
  forallb is_log t2 = true ->
  stops_at_failure (t1 ++ t2) = true.
Proof.
  intros H1 H2. induction t1 as [|ev t1 IH]; cbn [app stops_at_failure] in *.
  - induction t2 as [|ev t2 IH2]; [reflexivity|].
    cbn [forallb] in H2. apply andb_true_iff in H2 as [Hev H2].
    cbn [stops_at_failure]. destruct ev; [discriminate|]. cbn [raised_by].
    now apply IH2.
  - destruct (raised_by ev); [|now apply IH].
    rewrite forallb_app. now rewrite H1, H2.
Qed.

Lemma disciplined_ret {A} (a : A) : disciplined (ret a).
Proof. intros s. split; reflexivity. Qed.

Lemma disciplined_raise {A} e : disciplined (@raise A e).
Proof. intros s. split; [reflexivity | discriminate]. Qed.

Lemma disciplined_lift {A} (o : outcome A) : disciplined (lift o).
Proof. destruct o; [apply disciplined_ret | apply disciplined_raise]. Qed.

Lemma disciplined_logger lvl msg args : disciplined (logger lvl msg args).
Proof. intros s. split; reflexivity. Qed.

Lemma disciplined_request es_client q : disciplined (request es_client q).
Proof.
  intros s. unfold request. destruct (transport es_client q s) as [[e|v] s1];
    cbn [out trace]; split; try reflexivity. discriminate.
Qed.

Lemma disciplined_bind {A B} (m : M A) (f : A -> M B) :
  disciplined m -> (forall a, disciplined (f a)) -> disciplined (bind m f).
Proof.
  intros Hm Hf s. destruct (Hm s) as [Hm1 Hm2]. unfold bind.
  destruct (m s) as [[a|e] s1 t1]; cbn [out engine trace] in *.
  - destruct (Hf a s1) as [Hf1 Hf2]. specialize (Hm2 a eq_refl). split.
    + now rewrite stops_at_failure_answered.
    + intros b Hb. rewrite all_answered_app, Hm2. now apply (Hf2 b).
  - split; [exact Hm1 | discriminate].
Qed.

Lemma disciplined_for_in {X A} (body : X -> A -> M A) (xs : list X) :
  (forall x acc, disciplined (body x acc)) ->
  forall acc, disciplined (for_in xs body acc).
Proof.
  intros Hbody. induction xs as [|x xs IH]; intros acc; cbn [for_in].
  - apply disciplined_ret.
  - apply disciplined_bind; [apply Hbody | exact IH].
Qed.

Lemma disciplined_if {A} (b : bool) (m1 m2 : M A) :
  disciplined m1 -> disciplined m2 -> disciplined (if b then m1 else m2).
Proof. destruct b; auto. Qed.

Lemma disciplined_try_except {A} (body : M A) lvl msg args E :
  disciplined body ->
  disciplined (try_except_ESConnectionError body
                 (bind (logger lvl msg args) (fun _ => raise E))).
Proof.
  intros Hb s. destruct (Hb s) as [Hb1 Hb2]. unfold try_except_ESConnectionError.
  destruct (body s) as [[a|e] s1 t1]; cbn [out engine trace] in *.
  - split; assumption.
  - destruct e; try (split; [exact Hb1 | discriminate]).
    cbn [out trace]. split; [|discriminate].
    now apply stops_at_failure_logs.
Qed.

Hint Resolve disciplined_ret disciplined_raise disciplined_lift disciplined_logger
     disciplined_request disciplined_bind disciplined_for_in disciplined_if
     disciplined_try_except : guard.

Lemma disciplined_load_item index_name doc_type item count :
  disciplined (load_item index_name doc_type item count).
Proof.
  unfold load_item. destruct item as [okay result].
  apply disciplined_bind; [apply disciplined_lift|]. intros [[action result'] rest].
  apply disciplined_bind; [apply disciplined_lift|]. intros id.
  apply disciplined_bind; [apply disciplined_lift|]. intros doc_id.
  destruct okay; cbn [negb]; auto with guard.
Qed.

Lemma create_index_disciplined app_name index_name mapping es_host es_client t :
  disciplined (create_index app_name index_name mapping es_host es_client t).
Proof.
  unfold create_index.
  apply disciplined_bind; [apply disciplined_lift|intros scoped].
  apply disciplined_try_except.
  apply disciplined_bind; [auto with guard|intros _].
  apply disciplined_bind; [auto with guard|intros exists_].
  apply disciplined_bind; [|auto with guard].
  destruct exists_; cbn [negb]; [auto with guard|].
  apply disciplined_bind; [auto with guard|intros has_template].
  apply disciplined_bind; [destruct has_template; cbn [negb]; auto with guard|].
  auto 10 with guard.
Qed.

Lemma perform_disciplined (op : operation) : disciplined (perform op).
Proof.
  destruct op; unfold perform.
  - apply disciplined_bind; [|auto with guard]. unfold does_index_exist.
    apply disciplined_bind; [apply disciplined_lift|intros scoped].
    apply disciplined_try_except. auto with guard.
  - apply disciplined_bind; [|auto with guard]. unfold get_field_names.
    apply disciplined_bind; [apply disciplined_lift|intros scoped].
    apply disciplined_try_except.
    repeat (apply disciplined_bind; [auto with guard|intros ?]). auto with guard.
  - apply create_index_disciplined.
  - unfold delete_index.
    apply disciplined_bind; [apply disciplined_lift|intros scoped].
    apply disciplined_try_except.
    apply disciplined_bind; [auto with guard|intros _].
    apply disciplined_bind; [auto with guard|intros exists_].
    apply disciplined_bind; [|auto with guard].
    destruct exists_; auto 10 with guard.
  - unfold load_index.
    apply disciplined_bind; [apply disciplined_lift|intros scoped].
    apply disciplined_try_except.
    apply disciplined_bind; [auto with guard|intros _].
    apply disciplined_bind; [auto with guard|intros exists_].
    apply disciplined_bind.
    + destruct exists_; [auto with guard|].
      apply disciplined_bind; [apply create_index_disciplined | auto with guard].
    + intros _. apply disciplined_bind; [|auto 10 with guard].
      unfold for_streaming_bulk. apply disciplined_for_in. intros chunk acc.
      unfold submit_chunk. apply disciplined_bind; [auto with guard|intros items].
      apply disciplined_bind.
      * apply disciplined_for_in. intros item acc'. apply disciplined_load_item.
      * intros acc'. destruct (failed_results items);
          [apply disciplined_ret | apply disciplined_raise].
Qed.

(** No operation goes on after a request has raised, and none swallows an
    exception of the engine: in the trace of a call nothing but log records
    follows a request that raised, and a call that returns had every one of
    its requests answered. *)
Theorem operations_stop_at_first_failure (op : operation) (s : S) :
  stops_at_failure (trace (perform op s)) = true
  /\ match out (perform op s) with
     | Return _ => all_answered (trace (perform op s))
     | Raise _ => true
     end = true.
Proof.
  destruct (perform_disciplined op s) as [H1 H2]. split; [exact H1|].
  destruct (out (perform op s)) as [v|e]; [now apply (H2 v) | reflexivity].
Qed.

(** ** The reach of the operations *)

Lemma emits_lift {A} P (o : outcome A) : emits P (lift o).
Proof. destruct o; [apply emits_ret | apply emits_raise]. Qed.

Lemma emits_if {A} P (b : bool) (m1 m2 : M A) :
  emits P m1 -> emits P m2 -> emits P (if b then m1 else m2).
Proof. destruct b; auto. Qed.

Lemma emits_weaken {A} (P Q : event -> Prop) (m : M A) :
  (forall ev, P ev -> Q ev) -> emits P m -> emits Q m.
Proof. intros HPQ Hm s. eapply Forall_impl; [apply Hm | exact HPQ]. Qed.

Lemma emits_for_in {X A} P (body : X -> A -> M A) (xs : list X) :
  Forall (fun x => forall acc, emits P (body x acc)) xs ->
  forall acc, emits P (for_in xs body acc).
Proof.
  induction 1 as [|x xs Hx _ IH]; intros acc; cbn [for_in].
  - apply emits_ret.
  - apply emits_bind; [apply Hx | exact IH].
Qed.

Lemma emits_load_item (P : event -> Prop) index_name doc_type item count :
  (forall lvl msg args, P (Log lvl msg args)) ->
  emits P (load_item index_name doc_type item count).
Proof.
  intros HP. unfold load_item. destruct item as [okay result].
  apply emits_bind; [apply emits_lift|]. intros [[action result'] rest].
  apply emits_bind; [apply emits_lift|]. intros id.
  apply emits_bind; [apply emits_lift|]. intros doc_id.
  destruct okay; cbn [negb];
    (apply emits_bind; [apply emits_logger, HP | intros _; apply emits_ret]).
Qed.

(** No chunk is empty, none is longer than the chunk size. *)
Lemma chunked_fuel_bounds (n fuel : nat) (docs : list pyval) :
  (0 < n)%nat ->
  Forall (fun chunk => (0 < length chunk <= n)%nat) (chunked_fuel fuel n docs).
Proof.
  intros Hn. revert docs. induction fuel as [|fuel IH]; intros docs; [constructor|].
  destruct docs as [|d docs]; [constructor|].
  cbn [chunked_fuel]. constructor; [|apply IH].
  rewrite length_take. cbn [length]. lia.
Qed.

Lemma emits_bind_ret {A B} P (a : A) (f : A -> M B) :
  emits P (f a) -> emits P (bind (ret a) f).
Proof. intros H s. rewrite bind_ret_eq. apply H. Qed.

(** The events of [create_index]: through its client, for its scoped
    index. *)
Lemma create_index_confined app_name index_name mapping es_host es_client t :
  emits (fun ev =>
           match ev with
           | Request c q _ =>
               c = client_or es_client es_host
               /\ creation_request (app_name +:+ String "$" index_name) mapping t q
           | Log _ _ _ => True
           end)
        (create_index app_name index_name mapping es_host es_client t).
Proof.
  unfold create_index, creation_request. rewrite get_scoped_index_name_eq.
  cbn [lift]. apply emits_bind_ret.
  apply emits_try_except.
  - apply emits_bind; [apply emits_request; auto|intros _].
    apply emits_bind; [apply emits_request; auto|intros exists_].
    apply emits_bind; [|auto with guard].
    destruct exists_; cbn [negb]; [now apply emits_logger|].
    apply emits_bind; [apply emits_request; auto|intros has_template].
    apply emits_bind.
    + destruct has_template; cbn [negb]; [auto with guard|].
      apply emits_bind; [apply emits_request; auto 6|auto with guard].
    + intros _. apply emits_bind; [now apply emits_logger|intros _].
      apply emits_bind; [apply emits_request; auto 6|auto with guard].
  - apply emits_bind; [now apply emits_logger|auto with guard].
Qed.

(** Every operation stays within its reach: all its requests go through the
    one client of the call, and besides the health probe they concern its
    own scoped index only (for index creation also the default template);
    the existence check and the field enumeration send no request that
    changes the engine, and a bulk request of [load_index] carries between
    one and fifty documents for the scoped index and the given document
    type. *)
Theorem operations_stay_within_reach (op : operation) (s : S) :
  Forall (confined op) (trace (perform op s)).
Proof.
  revert s. change (emits (confined op) (perform op)).
  destruct op; unfold perform, confined, within, client_of;
    cbn [es_client_of es_host_of].
  - apply emits_bind; [|auto with guard]. unfold does_index_exist.
    rewrite get_scoped_index_name_eq. cbn [lift]. apply emits_bind_ret.
    apply emits_try_except.
    + apply emits_bind; [apply emits_request; auto|intros _].
      apply (emits_request _ _ (indices_exists _)); auto.
    + apply emits_bind; [now apply emits_logger|auto with guard].
  - apply emits_bind; [|auto with guard]. unfold get_field_names.
    rewrite get_scoped_index_name_eq. cbn [lift]. apply emits_bind_ret.
    apply emits_try_except.
    + apply emits_bind; [apply emits_request; auto|intros _].
      apply emits_bind; [apply emits_request; auto|intros res].
      repeat (apply emits_bind; [apply emits_lift|intros ?]). apply emits_lift.
    + apply emits_bind; [now apply emits_logger|auto with guard].
  - apply create_index_confined.
  - unfold delete_index.
    rewrite get_scoped_index_name_eq. cbn [lift]. apply emits_bind_ret.
    apply emits_try_except.
    + apply emits_bind; [apply emits_request; auto|intros _].
      apply emits_bind; [apply emits_request; auto|intros exists_].
      apply emits_bind; [|auto with guard].
      destruct exists_; [|auto with guard].
      apply emits_bind; [now apply emits_logger|intros _].
      apply emits_bind; [apply emits_request; auto|auto with guard].
    + apply emits_bind; [now apply emits_logger|auto with guard].
  - unfold load_index.
    rewrite get_scoped_index_name_eq. cbn [lift]. apply emits_bind_ret.
    apply emits_try_except.
    + apply emits_bind; [apply emits_request; auto|intros _].
      apply emits_bind; [apply emits_request; auto|intros exists_].
      apply emits_bind.
      * destruct exists_; [now apply emits_logger|].
        apply emits_bind; [|auto with guard].
        eapply emits_weaken; [|apply create_index_confined].
        intros [c q a|lvl msg args]; [|trivial].
        cbn [client_or]. intros [-> Hq]. auto.
      * intros _. apply emits_bind.
        -- unfold for_streaming_bulk. apply emits_for_in.
           eapply Forall_impl; [apply (chunked_fuel_bounds 50); lia|].
           intros chunk Hchunk acc. unfold submit_chunk.
           apply emits_bind; [apply emits_request; intros _; split; [reflexivity|]|].
           ++ right. right. right. exists chunk. auto.
           ++ intros items. apply emits_bind.
              ** apply emits_for_in. apply Forall_forall.
                 intros item _ acc'. now apply emits_load_item.
              ** intros acc'. destruct (failed_results items);
                   [apply emits_ret | apply emits_raise].
        -- intros count. apply emits_bind; [now apply emits_logger|auto with guard].
    + apply emits_bind; [now apply emits_logger|auto with guard].
Qed.

(** ** Edges of the bulk loader *)

(** Loading no document: after the probe and the existence check
    [load_index] does what [create_index] does if the index is missing, and
    logs that it loads if it exists; it sends no bulk request nor any other
    request, logs that it loaded 0 documents and returns [None]. If
    [create_index] raises, [load_index] raises the same exception and logs
    nothing more. *)
Theorem load_index_of_no_documents
    (app_name index_name : string) (mapping : pyval)
    (doc_type : string) (es_host : option string)
    (es_client : option Elasticsearch) (connect_timeout : Z)
    (s s1 s2 : S) (health : pyval) (exists_ : bool) :
  let client := client_or es_client es_host in
  let scoped := app_name +:+ String "$" index_name in
  let r := load_index app_name index_name [] mapping doc_type es_host es_client
             connect_timeout s in
  transport client (cluster_health connect_timeout) s = (inr health, s1) ->
  transport client (indices_exists scoped) s1 = (inr exists_, s2) ->
  if exists_ then
    r = Result (Return VNone) s2
          [Request client (cluster_health connect_timeout) (inr health);
           Request client (indices_exists scoped) (inr true);
           Log INFO "Loading index %r" [VStr index_name];
           Log INFO "Loaded %s document%s" [VInt 0; VStr "s"]]
  else
    let creation := create_index app_name index_name mapping es_host (Some client) 2 s2 in
    engine r = engine creation
    /\ match out creation with
       | Return _ =>
           out r = Return VNone
           /\ trace r
              = [Request client (cluster_health connect_timeout) (inr health);
                 Request client (indices_exists scoped) (inr false)]
                ++ trace creation
                ++ [Log INFO "Loaded %s document%s" [VInt 0; VStr "s"]]
       | Raise e =>
           out r = Raise e
           /\ trace r
              = [Request client (cluster_health connect_timeout) (inr health);
                 Request client (indices_exists scoped) (inr false)]
                ++ trace creation
       end.
Proof.
  intros client scoped r H1 H2. subst r.
  unfold load_index. rewrite get_scoped_index_name_eq.
  cbn [lift]. rewrite bind_ret_eq. cbn [out engine trace]. lazy beta.
  fold client. fold scoped.
  match goal with
  | |- context [try_except_ESConnectionError ?b ?h s] => set (body := b); set (handler := h)
  end.
  assert (Htail : forall s0 : S,
            bind (for_streaming_bulk client [] scoped doc_type 50
                    (load_item index_name doc_type) 0%Z)
                 (fun count =>
                    bind (logger INFO "Loaded %s document%s"
                            [VInt count;
                             VStr (if (count =? 1)%Z then EmptyString else "s")])
                         (fun _ => ret VNone)) s0
            = Result (Return VNone) s0
                [Log INFO "Loaded %s document%s" [VInt 0; VStr "s"]])
    by reflexivity.
  destruct exists_.
  - assert (Hbody : body s
      = Result (Return VNone) s2
          [Request client (cluster_health connect_timeout) (inr health);
           Request client (indices_exists scoped) (inr true);
           Log INFO "Loading index %r" [VStr index_name];
           Log INFO "Loaded %s document%s" [VInt 0; VStr "s"]]).
    { subst body. rewrite (probe_and_exists _ _ _ _ _ _ _ _ _ H1 H2).
      lazy beta iota. rewrite bind_logger_eq. cbn [out engine trace].
      rewrite Htail. reflexivity. }
    rewrite (try_except_Return _ _ _ _ _ _ Hbody). reflexivity.
  - cbn zeta.
    pose proof (create_index_handled app_name index_name mapping es_host
                  (Some client) 2 s2) as [_ Hnc].
    destruct (create_index app_name index_name mapping es_host (Some client) 2 s2)
      as [[v|e] s3 t3] eqn:Hc; cbn [out engine trace] in *.
    + assert (Hpre : bind (create_index app_name index_name mapping es_host
                             (Some client) 2) (fun _ => ret tt) s2
                     = Result (Return tt) s3 t3).
      { rewrite (bind_Return _ _ _ _ _ _ Hc). cbn [ret out engine trace].
        now rewrite app_nil_r. }
      assert (Hbody : body s
        = Result (Return VNone) s3
            (Request client (cluster_health connect_timeout) (inr health)
             :: Request client (indices_exists scoped) (inr false)
             :: t3 ++ [Log INFO "Loaded %s document%s" [VInt 0; VStr "s"]])).
      { subst body. rewrite (probe_and_exists _ _ _ _ _ _ _ _ _ H1 H2).
        lazy beta iota. rewrite (bind_Return _ _ _ _ _ _ Hpre).
        rewrite Htail. reflexivity. }
      rewrite (try_except_Return _ _ _ _ _ _ Hbody). cbn [out engine trace].
      repeat split.
    + assert (Hpre : bind (create_index app_name index_name mapping es_host
                             (Some client) 2) (fun _ => ret tt) s2
                     = Result (Raise e) s3 t3)
        by apply (bind_Raise _ _ _ _ _ _ Hc).
      assert (Hbody : body s
        = Result (Raise e) s3
            (Request client (cluster_health connect_timeout) (inr health)
             :: Request client (indices_exists scoped) (inr false) :: t3)).
      { subst body. rewrite (probe_and_exists _ _ _ _ _ _ _ _ _ H1 H2).
        lazy beta iota. rewrite (bind_Raise _ _ _ _ _ _ Hpre). reflexivity. }
      assert (He : is_connection_error e = false).
      { destruct e; try reflexivity. exfalso. now apply (Hnc info). }
      rewrite (try_except_passed _ _ _ _ _ _ Hbody He). cbn [out engine trace].
      repeat split.
Qed.

Lemma dict_getitem_missing (d : dict) (key : string) :
  ~ In key (map fst d) -> dict_getitem d key = Raise (KeyError key).
Proof.
  induction d as [|[k v] d IH]; [reflexivity|].
  intros Hno. cbn [dict_getitem].
  destruct (String.eqb_spec k key) as [->|Hne].
  - exfalso. apply Hno. now left.
  - apply IH. intros Hin. apply Hno. now right.
Qed.

(** A success without an [_id] ends the load: when the first result of the
    first chunk is reported as done and has no [_id], the lookup raises
    [KeyError], which is no connection error, so [load_index] raises it as
    it is, with nothing logged for the document; the results after it are
    not read and no further chunk is submitted. *)
Theorem load_index_aborts_on_result_without_id
    (app_name index_name : string) (doc : pyval) (docs : list pyval)
    (mapping : pyval) (doc_type : string) (es_host : option string)
    (es_client : option Elasticsearch) (connect_timeout : Z)
    (s s1 s2 s3 : S) (health : pyval)
    (action : string) (result : dict) (items : list bulk_item) :
  let client := client_or es_client es_host in
  let scoped := app_name +:+ String "$" index_name in
  let chunk := take 50 (doc :: docs) in
  transport client (cluster_health connect_timeout) s = (inr health, s1) ->
  transport client (indices_exists scoped) s1 = (inr true, s2) ->
  transport client (bulk scoped doc_type chunk) s2
  = (inr ((true, [(action, VDict result)]) :: items), s3) ->
  ~ In "_id" (map fst result) ->
  load_index app_name index_name (doc :: docs) mapping doc_type es_host es_client
    connect_timeout s
  = Result (Raise (KeyError "_id")) s3
      [Request client (cluster_health connect_timeout) (inr health);
       Request client (indices_exists scoped) (inr true);
       Log INFO "Loading index %r" [VStr index_name];
       Request client (bulk scoped doc_type chunk)
         (inr ((true, [(action, VDict result)]) :: items))].
Proof.
  intros client scoped chunk H1 H2 H3 Hno.
  unfold load_index. rewrite get_scoped_index_name_eq.
  cbn [lift]. rewrite bind_ret_eq. lazy beta. fold client. fold scoped.
  match goal with
  | |- context [try_except_ESConnectionError ?b ?h s] => set (body := b)
  end.
  assert (Hitem : load_item index_name doc_type (true, [(action, VDict result)])
                    0%Z s3
                  = Result (Raise (KeyError "_id")) s3 []).
  { unfold load_item. cbn [popitem last removelast lift].
    rewrite bind_ret_eq. cbn [getitem]. rewrite (dict_getitem_missing _ _ Hno).
    reflexivity. }
  set (rest := fun answer : list bulk_item =>
                 bind (for_in (succeeded answer) (load_item index_name doc_type) 0%Z)
                   (fun acc => match failed_results answer with
                               | [] => ret acc
                               | errors => raise (BulkIndexError errors)
                               end)).
  assert (Hrest : rest ((true, [(action, VDict result)]) :: items) s3
                  = Result (Raise (KeyError "_id")) s3 []).
  { unfold rest. apply bind_Raise.
    change (succeeded ((true, [(action, VDict result)]) :: items))
      with ((true, [(action, VDict result)]) :: succeeded items).
    cbn [for_in]. apply (bind_Raise _ _ _ _ _ _ Hitem). }
  assert (Hchunk : submit_chunk client scoped doc_type
                     (load_item index_name doc_type) chunk 0%Z s2
                   = Result (Raise (KeyError "_id")) s3
                       [Request client (bulk scoped doc_type chunk)
                          (inr ((true, [(action, VDict result)]) :: items))]).
  { unfold submit_chunk.
    etransitivity;
      [exact (bind_request_ok client (bulk scoped doc_type chunk) rest _ _ _ H3)|].
    exact (f_equal
             (fun r => Result (out r) (engine r)
                         (Request client (bulk scoped doc_type chunk)
                            (inr ((true, [(action, VDict result)]) :: items))
                          :: trace r))
             Hrest). }
  assert (Hloop : for_streaming_bulk client (doc :: docs) scoped doc_type 50
                    (load_item index_name doc_type) 0%Z s2
                  = Result (Raise (KeyError "_id")) s3
                      [Request client (bulk scoped doc_type chunk)
                         (inr ((true, [(action, VDict result)]) :: items))]).
  { unfold for_streaming_bulk. cbn [chunked chunked_fuel length for_in].
    apply (bind_Raise _ _ _ _ _ _ Hchunk). }
  assert (Hbody : body s
    = Result (Raise (KeyError "_id")) s3
        [Request client (cluster_health connect_timeout) (inr health);
         Request client (indices_exists scoped) (inr true);
         Log INFO "Loading index %r" [VStr index_name];
         Request client (bulk scoped doc_type chunk)
           (inr ((true, [(action, VDict result)]) :: items))]).
  { subst body. rewrite (probe_and_exists _ _ _ _ _ _ _ _ _ H1 H2).
    lazy beta iota. rewrite bind_logger_eq. cbn [out engine trace].
    rewrite (bind_Raise _ _ _ _ _ _ Hloop). reflexivity. }
  rewrite (try_except_passed _ _ _ _ _ _ Hbody eq_refl). reflexivity.
Qed.

(** ** Failures reported by the engine *)

Lemma unfailing_of_no_document {A} (m : M A) :
  emits (fun ev => no_document ev = true) m -> unfailing m.
Proof.
  intros Hm s a _. destruct (no_document_only _ (Hm s)) as (H & _). now rewrite H.
Qed.

Lemma unfailing_bind {A B} (m : M A) (f : A -> M B) :
  unfailing m -> (forall a, unfailing (f a)) -> unfailing (bind m f).
Proof.
  intros Hm Hf s b. specialize (Hm s). rewrite out_bind, trace_bind.
  destruct (out (m s)) as [a|e]; [|discriminate].
  intros Hb. rewrite answered_items_app, failures_app.
  rewrite (Hm a eq_refl), (Hf a _ b Hb). reflexivity.
Qed.

Lemma unfailing_for_in {X A} (body : X -> A -> M A) (xs : list X) :
  (forall x acc, unfailing (body x acc)) ->
  forall acc, unfailing (for_in xs body acc).
Proof.
  intros Hbody. induction xs as [|x xs IH]; intros acc; cbn [for_in].
  - intros s a _. reflexivity.
  - apply unfailing_bind; [apply Hbody | exact IH].
Qed.

Lemma unfailing_try_except {A} (body : M A) lvl msg args E :
  unfailing body ->
  unfailing (try_except_ESConnectionError body
               (bind (logger lvl msg args) (fun _ => raise E))).
Proof.
  intros Hb s a. specialize (Hb s). unfold try_except_ESConnectionError.
  destruct (body s) as [[a'|e] s1 t1]; cbn [out engine trace] in *.
  - exact (Hb a).
  - destruct e; discriminate.
Qed.

Lemma failed_results_none (items : list bulk_item) :
  failed_results items = [] -> failures items = 0%nat.
Proof.
  unfold failed_results, failures. intros H.
  apply (f_equal (@length dict)) in H. now rewrite length_map in H.
Qed.

Lemma load_items_log_only index_name doc_type (items : list bulk_item) (count : Z)
    (s : S) :
  answered_items (trace (for_in items (load_item index_name doc_type) count s)) = [].
Proof.
  assert (H : emits (fun ev => is_log ev = true)
                (for_in items (load_item index_name doc_type) count)).
  { apply emits_for_in. apply Forall_forall. intros item _ acc.
    now apply emits_load_item. }
  specialize (H s).
  apply logs_only. apply forallb_forall. intros ev Hev.
  rewrite Forall_forall in H. apply H. now apply list_elem_of_In.
Qed.

(** A chunk goes through only if none of its items is reported as failed. *)
Lemma submit_chunk_unfailing es_client index index_name doc_type chunk count :
  unfailing (submit_chunk es_client index doc_type (load_item index_name doc_type)
               chunk count).
Proof.
  intros s a. unfold submit_chunk.
  set (rest := fun items : list bulk_item =>
                 bind (for_in (succeeded items) (load_item index_name doc_type) count)
                   (fun acc => match failed_results items with
                               | [] => ret acc
                               | errors => raise (BulkIndexError errors)
                               end)).
  change (out (bind (request es_client (bulk index doc_type chunk)) rest s) = Return a ->
          failures (answered_items
                      (trace (bind (request es_client (bulk index doc_type chunk))
                                rest s))) = 0%nat).
  destruct (transport es_client (bulk index doc_type chunk) s) as [[e|items] s1] eqn:Ht.
  { rewrite (bind_request_raise _ _ _ _ _ _ Ht). discriminate. }
  change (list bulk_item) in (type of items).
  rewrite (bind_request_ok es_client (bulk index doc_type chunk) rest _ _ _ Ht).
  cbn [out trace]. unfold rest. rewrite out_bind, trace_bind.
  pose proof (load_items_log_only index_name doc_type (succeeded items) count s1)
    as Hlogs.
  destruct (out (for_in (succeeded items) (load_item index_name doc_type) count s1))
    as [acc|e]; [|discriminate].
  destruct (failed_results items) as [|error errors] eqn:Hfailed; [|discriminate].
  intros _. cbn [ret trace]. rewrite app_nil_r.
  rewrite answered_items_bulk, failures_app, Hlogs.
  rewrite (failed_results_none items Hfailed). reflexivity.
Qed.

Lemma load_index_unfailing app_name index_name docs mapping doc_type es_host
    es_client t :
  unfailing (load_index app_name index_name docs mapping doc_type es_host es_client t).
Proof.
  unfold load_index. rewrite get_scoped_index_name_eq. cbn [lift].
  apply unfailing_bind; [apply unfailing_of_no_document, emits_ret|intros scoped].
  apply unfailing_try_except.
  apply unfailing_bind;
    [apply unfailing_of_no_document; now apply emits_request|intros _].
  apply unfailing_bind;
    [apply unfailing_of_no_document; now apply emits_request|intros exists_].
  apply unfailing_bind.
  - apply unfailing_of_no_document. destruct exists_; [now apply emits_logger|].
    apply emits_bind; [apply create_index_no_document | auto with guard].
  - intros _. apply unfailing_bind.
    + unfold for_streaming_bulk. apply unfailing_for_in. intros chunk acc.
      apply submit_chunk_unfailing.
    + intros count. apply unfailing_of_no_document.
      apply emits_bind; [now apply emits_logger|auto with guard].
Qed.

(** The loop body never meets a failure. *)
Lemma load_index_no_failure_record app_name index_name docs mapping doc_type
    es_host es_client t :
  emits (fun ev => is_failure_record ev = false)
        (load_index app_name index_name docs mapping doc_type es_host es_client t).
Proof.
  unfold load_index. rewrite get_scoped_index_name_eq. cbn [lift].
  apply emits_bind_ret. apply emits_try_except.
  - apply emits_bind; [now apply emits_request|intros _].
    apply emits_bind; [now apply emits_request|intros exists_].
    apply emits_bind.
    + destruct exists_; [now apply emits_logger|].
      apply emits_bind; [|auto with guard].
      eapply emits_weaken; [|apply create_index_no_document].
      intros ev Hev. unfold no_document, is_document_record in Hev.
      apply andb_true_iff in Hev as [Hev _]. apply negb_true_iff in Hev.
      now apply orb_false_iff in Hev.
    + intros _. apply emits_bind.
      * unfold for_streaming_bulk. apply emits_for_in. apply Forall_forall.
        intros chunk _ acc. unfold submit_chunk.
        apply emits_bind; [now apply emits_request|intros items].
        apply emits_bind.
        -- apply emits_for_in. apply Forall_forall. intros [okay result] Hin acc'.
           apply list_elem_of_In, filter_In in Hin as [_ Hok].
           cbn [fst] in Hok. subst okay. unfold load_item.
           apply emits_bind; [apply emits_lift|]. intros [[action result'] rest].
           apply emits_bind; [apply emits_lift|]. intros id.
           apply emits_bind; [apply emits_lift|]. intros doc_id.
           cbn [negb].
           apply emits_bind; [now apply emits_logger | intros _; apply emits_ret].
        -- intros acc'. destruct (failed_results items);
             [apply emits_ret | apply emits_raise].
      * intros count. apply emits_bind; [now apply emits_logger|auto with guard].
  - apply emits_bind; [now apply emits_logger|auto with guard].
Qed.

(** The failure branch of the loop of [load_index] is never taken:
    [streaming_bulk] is called with its default [raise_on_error], so a
    result reported as failed is kept back from the loop. Whatever the
    engine answers, [load_index] logs no "Failed to ..." record, and it
    returns only if no result of its bulk requests is reported as failed:
    a load with a reported failure ends in an exception. *)
Theorem load_index_never_logs_a_failure
    (app_name index_name : string) (docs : list pyval) (mapping : pyval)
    (doc_type : string) (es_host : option string)
    (es_client : option Elasticsearch) (connect_timeout : Z) (s : S) :
  let r := load_index app_name index_name docs mapping doc_type es_host es_client
             connect_timeout s in
  logged_failures (trace r) = 0%nat
  /\ match out r with
     | Return _ => failures (answered_items (trace r))
     | Raise _ => 0%nat
     end = 0%nat.
Proof.
  intros r. split.
  - pose proof (load_index_no_failure_record app_name index_name docs mapping
                  doc_type es_host es_client connect_timeout s) as H.
    fold r in H. unfold logged_failures.
    induction H as [|ev t Hev _ IH]; [reflexivity|].
    cbn [List.filter]. now rewrite Hev.
  - pose proof (load_index_unfailing app_name index_name docs mapping doc_type
                  es_host es_client connect_timeout s) as H.
    fold r in H. destruct (out r) as [v|e]; [now apply (H v) | reflexivity].
Qed.

End Helpers.

Arguments Result {S A} out engine trace.
Arguments out {S A} r.
Arguments engine {S A} r.
Arguments trace {S A} r.

(** ** The theorems at work on the reference engine *)

Lemma scoped_name_injective_witness :
  exists s1 s2,
    get_scoped_index_name "food" "menu" = Return s1
    /\ get_scoped_index_name "food" "drinks" = Return s2
    /\ s1 <> s2.
Proof.
  apply (proj2 scoped_name_injective "food" "menu" "food" "drinks");
    [discriminate | reflexivity | reflexivity | reflexivity | reflexivity].
Defined.

(** The connection drops after the probe and the existence check of a
    deletion. *)
Lemma connection_error_is_translated_witness :
  let r := perform fake_transport ∅ demo_template "default" demo_repr
             (DeleteIndex "food" "menu" None (Some demo_client) 2)
             (fake_with_menu (Some 2%nat)) in
  any_connection_failed (trace r) = true
  /\ (exists es_host, out r = Raise (KnowledgeBaseConnectionError es_host))
  /\ (forall info, out r <> Raise (ESConnectionError info)).
Proof.
  intros r. split; [reflexivity|].
  destruct (connection_error_is_translated fake_transport ∅ demo_template "default"
              demo_repr (DeleteIndex "food" "menu" None (Some demo_client) 2)
              (fake_with_menu (Some 2%nat)) eq_refl) as (H1 & H2 & _).
  split; [exact H1 | exact H2].
Defined.

(** The field enumeration against an engine that cannot be reached. *)
Lemma connection_error_host_diagnostics_witness :
  let r := perform fake_transport ∅ demo_template "default" demo_repr
             (GetFieldNames "food" "menu" (Some "localhost:9200") None 2)
             (fake_with_menu (Some 0%nat)) in
  any_connection_failed (trace r) = true
  /\ out r = Raise (KnowledgeBaseConnectionError None).
Proof.
  intros r. split; [reflexivity|].
  exact (connection_error_host_diagnostics fake_transport ∅ demo_template "default"
           demo_repr (GetFieldNames "food" "menu" (Some "localhost:9200") None 2)
           (fake_with_menu (Some 0%nat)) eq_refl).
Defined.

(** A bulk load against an engine that cannot be reached. *)
Lemma failed_probe_mutates_nothing_witness :
  let s := fake_with_menu (Some 0%nat) in
  let r := perform fake_transport ∅ demo_template "default" demo_repr
             (LoadIndex "food" "menu" demo_docs demo_mapping "document" None
                        (Some demo_client) 2) s in
  out r = Raise (KnowledgeBaseConnectionError (Some (Some "localhost:9200")))
  /\ requests_of (trace r) = [cluster_health 2]
  /\ engine r = s.
Proof.
  intros s r.
  destruct (failed_probe_mutates_nothing fake_transport ∅ demo_template "default"
              demo_repr
              (LoadIndex "food" "menu" demo_docs demo_mapping "document" None
                         (Some demo_client) 2)
              s s "Connection refused" eq_refl) as (H1 & _ & H2 & H3 & _).
  split; [exact H1 | split; [exact H2 | exact H3]].
Defined.

(** The mapping of an index is untouched by the probes of the reference
    engine. *)
Lemma fake_probes_keep_mapping (index : string) (c : Elasticsearch)
    (q : es_request) (s : fake_es) :
  is_mutation q = false ->
  indices (snd (fake_transport c q s)) !! index = indices s !! index.
Proof.
  intros Hq. unfold fake_transport.
  destruct q; try discriminate Hq; destruct (budget s) as [[|n]|];
    cbn; try reflexivity;
    destruct (indices s !! _); reflexivity.
Defined.

(** Creating the index [menu] of [food] a second time, with another
    mapping. *)
Lemma create_index_existing_is_noop_witness :
  let s := fake_with_menu None in
  let r := create_index fake_transport ∅ demo_template "default"
             "food" "menu" (VDict []) None (Some demo_client) 2 s in
  out r = Return VNone
  /\ requests_of (trace r) = [cluster_health 2; indices_exists "food$menu"]
  /\ indices (engine r) !! "food$menu" = Some demo_mapping.
Proof.
  intros s r.
  destruct (create_index_existing_is_noop fake_transport ∅ demo_template "default"
              "food" "menu" (VDict []) None (Some demo_client) 2 s s s
              (VDict [("status", VStr "green")])
              (fun s0 : fake_es => indices s0 !! "food$menu")
              eq_refl eq_refl (fake_probes_keep_mapping "food$menu"))
    as (H1 & _ & H2 & _ & H3).
  split; [exact H1 | split; [exact H2 | exact H3]].
Defined.

(** Deleting the index [drinks] of [food], which does not exist. *)
Lemma delete_index_deletes_or_is_silent_witness :
  let s := fake_with_menu None in
  let r := delete_index fake_transport ∅ demo_repr
             "food" "drinks" None (Some demo_client) 2 s in
  out r = Return VNone
  /\ requests_of (trace r) = [cluster_health 2; indices_exists "food$drinks"]
  /\ engine r = s.
Proof.
  intros s r.
  destruct (delete_index_deletes_or_is_silent fake_transport ∅ demo_repr
              "food" "drinks" None (Some demo_client) 2 s s s
              (VDict [("status", VStr "green")]) false eq_refl eq_refl)
    as (H1 & H2 & H3).
  split; [exact H1 | split; [|exact H3]].
  fold r in H2. rewrite H2. reflexivity.
Defined.

(** Loading into an empty engine: the index is created with the mapping of
    the caller, then the documents are submitted. *)
Lemma load_index_creates_missing_index_first_witness :
  let s := fake_empty None in
  let r := load_index fake_transport ∅ demo_template "default" demo_repr
             "food" "menu" demo_docs demo_mapping "document" None
             (Some demo_client) 2 s in
  requests_of (trace r)
  = [cluster_health 2; indices_exists "food$menu";
     cluster_health 2; indices_exists "food$menu";
     indices_exists_template "default";
     indices_put_template "default" demo_template;
     indices_create "food$menu" demo_mapping;
     bulk "food$menu" "document" demo_docs].
Proof.
  intros s r.
  destruct (load_index_creates_missing_index_first fake_transport ∅ demo_template
              "default" demo_repr "food" "menu" demo_docs demo_mapping "document"
              None (Some demo_client) 2 s s s
              (VDict [("status", VStr "green")]) false eq_refl eq_refl)
    as (_ & H).
  vm_compute in H. destruct H as [H _]. exact H.
Defined.

(** Three documents, all accepted by the engine. *)
Lemma load_index_logs_success_count_witness :
  let r := load_index fake_transport ∅ demo_template "default" demo_repr
             "food" "menu" accepted_docs demo_mapping "document" None
             (Some demo_client) 2 (fake_with_menu None) in
  submitted_docs (trace r) = accepted_docs
  /\ processed (trace r) = 3%nat
  /\ logged_failures (trace r) = 0%nat
  /\ last (trace r) = Some (Log INFO "Loaded %s document%s" [VInt 3; VStr "s"])
  /\ out r = Return VNone.
Proof.
  intros r.
  destruct (load_index_logs_success_count fake_transport ∅ demo_template "default"
              demo_repr "food" "menu" accepted_docs demo_mapping "document" None
              (Some demo_client) 2 (fake_with_menu None) eq_refl eq_refl eq_refl)
    as (H0 & _ & H1 & H2 & H3 & H4).
  split; [exact H0 | split; [exact H1 | split; [exact H2 | split; [exact H3 | exact H4]]]].
Defined.

Lemma does_index_exist_answers_witness :
  out (does_index_exist fake_transport ∅ "food" "drinks" None (Some demo_client) 2
         (fake_with_menu None))
  = Return false.
Proof.
  rewrite (does_index_exist_answers fake_transport ∅ "food" "drinks" None
             (Some demo_client) 2 (fake_with_menu None) (fake_with_menu None)
             (fake_with_menu None) (VDict [("status", VStr "green")]) false
             eq_refl eq_refl).
  reflexivity.
Defined.

Lemma get_field_names_lists_properties_witness :
  out (get_field_names fake_transport ∅ "food" "menu" None (Some demo_client) 2
         fake_with_fields)
  = Return ["name"; "price"].
Proof.
  rewrite (get_field_names_lists_properties fake_transport ∅ "food" "menu" None
             (Some demo_client) 2 fake_with_fields fake_with_fields fake_with_fields
             (VDict [("status", VStr "green")]) _ _ _ _
             [("name", VDict [("type", VStr "text")]);
              ("price", VDict [("type", VStr "float")])]
             eq_refl eq_refl eq_refl eq_refl eq_refl eq_refl).
  reflexivity.
Defined.

(** The mapping of [fake_with_menu] has no [document] type below
    [mappings]. *)
Lemma get_field_names_without_document_type_witness :
  out (get_field_names fake_transport ∅ "food" "menu" None (Some demo_client) 2
         (fake_with_menu None))
  = Raise (KeyError "document").
Proof.
  rewrite (get_field_names_without_document_type fake_transport ∅ "food" "menu"
             None (Some demo_client) 2 (fake_with_menu None) (fake_with_menu None)
             (fake_with_menu None) (VDict [("status", VStr "green")]) _ _
             [("mappings",
               VDict [("document", VDict [("properties", VDict [("name", VDict [])])])])]
             eq_refl eq_refl eq_refl eq_refl).
  - reflexivity.
  - cbn. intros [H|[]]. discriminate H.
Defined.

Lemma other_error_of_probe_propagates_witness :
  out (perform unauthorized_transport ∅ demo_template "default" demo_repr
         (DeleteIndex "food" "menu" None (Some demo_client) 2) tt)
  = Raise (ESTransportError 401).
Proof.
  rewrite (other_error_of_probe_propagates unauthorized_transport ∅ demo_template
             "default" demo_repr (DeleteIndex "food" "menu" None (Some demo_client) 2)
             tt tt (ESTransportError 401) eq_refl eq_refl).
  reflexivity.
Defined.

(** Creating the first index of an empty engine. *)
Lemma create_index_provisions_template_then_creates_witness :
  let r := create_index fake_transport ∅ demo_template "default"
             "food" "menu" demo_mapping None (Some demo_client) 2 (fake_empty None) in
  requests_of (trace r)
  = [cluster_health 2; indices_exists "food$menu"; indices_exists_template "default";
     indices_put_template "default" demo_template;
     indices_create "food$menu" demo_mapping]
  /\ out r = Return VNone.
Proof.
  intros r.
  destruct (create_index_provisions_template_then_creates fake_transport ∅
              demo_template "default" "food" "menu" demo_mapping None
              (Some demo_client) 2
              (fake_empty None) (fake_empty None) (fake_empty None) (fake_empty None)
              {| budget := None; indices := ∅;
                 templates := {[ "default" := demo_template ]}; stored := [] |}
              (VDict [("status", VStr "green")]) false
              eq_refl eq_refl eq_refl (ex_intro _ acknowledged eq_refl))
    as (H1 & _ & H2).
  split; [exact H1 | exact H2].
Defined.

Lemma scoped_name_determines_names_witness :
  "food" = "food" /\ "menu$2" = "menu$2".
Proof.
  exact (scoped_name_determines_names "food" "menu$2" "food" "menu$2"
           eq_refl eq_refl eq_refl).
Defined.

Lemma load_item_records_witness :
  load_item (S := fake_es) demo_repr "menu" "document"
    (false, [("index", VDict [("_id", VStr "7"); ("status", VInt 400)])]) 4
    (fake_empty None)
  = Result (Return 4%Z) (fake_empty None)
      [Log ERROR "Failed to %s document %s: %r"
         [VStr "index"; VStr "/menu/document/7";
          VDict [("_id", VStr "7"); ("status", VInt 400)]]].
Proof.
  exact (load_item_records demo_repr "menu" "document" "index" "7" false
           [("_id", VStr "7"); ("status", VInt 400)] 4 (fake_empty None) eq_refl).
Defined.

(** No document for an index that does not exist yet. *)
Lemma load_index_of_no_documents_witness :
  let r := load_index fake_transport ∅ demo_template "default" demo_repr
             "food" "menu" [] demo_mapping "document" None (Some demo_client) 2
             (fake_empty None) in
  out r = Return VNone
  /\ requests_of (trace r)
     = [cluster_health 2; indices_exists "food$menu";
        cluster_health 2; indices_exists "food$menu";
        indices_exists_template "default";
        indices_put_template "default" demo_template;
        indices_create "food$menu" demo_mapping]
  /\ last (trace r) = Some (Log INFO "Loaded %s document%s" [VInt 0; VStr "s"]).
Proof.
  intros r.
  destruct (load_index_of_no_documents fake_transport ∅ demo_template "default"
              demo_repr "food" "menu" demo_mapping "document" None
              (Some demo_client) 2 (fake_empty None) (fake_empty None)
              (fake_empty None) (VDict [("status", VStr "green")]) false
              eq_refl eq_refl)
    as (_ & H).
  match type of H with
  | match ?o with _ => _ end =>
      assert (Hc : o = Return VNone) by (vm_compute; reflexivity);
      rewrite Hc in H
  end.
  destruct H as [H1 H2]. subst r.
  split; [exact H1|]. rewrite H2. vm_compute. split; reflexivity.
Defined.

Lemma load_index_aborts_on_result_without_id_witness :
  out (load_index terse_transport ∅ demo_template "default" demo_repr
         "food" "menu" demo_docs demo_mapping "document" None (Some demo_client) 2 tt)
  = Raise (KeyError "_id").
Proof.
  rewrite (load_index_aborts_on_result_without_id terse_transport ∅ demo_template
             "default" demo_repr "food" "menu"
             (VDict [("_id", VStr "1")]) [VStr "garbage"; VDict [("_id", VStr "3")]]
             demo_mapping "document" None (Some demo_client) 2 tt tt tt tt
             (VDict [("status", VStr "green")]) "index" [("status", VInt 201)]
             [(true, [("index", VDict [("status", VInt 201)])]);
              (true, [("index", VDict [("status", VInt 201)])])]
             eq_refl eq_refl eq_refl).
  - reflexivity.
  - cbn. intros [H|[]]. discriminate H.
Defined.

(** ** Where the code differs from the statements *)

(** C1 as stated fails, twice over. Of three documents that the engine all
    accepts, the call returns [None], not the count 3. Of three documents of
    which the engine rejects the second, the call returns no count either:
    it raises the [BulkIndexError] of [streaming_bulk] after the two
    successes of the chunk, and the failure is not logged. *)
Lemma load_index_does_not_return_the_count :
  let accepted := load_index fake_transport ∅ demo_template "default" demo_repr
                    "food" "menu" accepted_docs demo_mapping "document" None
                    (Some demo_client) 2 (fake_with_menu None) in
  let rejected := load_index fake_transport ∅ demo_template "default" demo_repr
                    "food" "menu" demo_docs demo_mapping "document" None
                    (Some demo_client) 2 (fake_with_menu None) in
  (length accepted_docs = 3%nat
   /\ all_answered (trace accepted) = true
   /\ failures (answered_items (trace accepted)) = 0%nat
   /\ out accepted = Return VNone
   /\ out accepted <> Return (VInt (3 - 0)))
  /\ (length demo_docs = 3%nat
      /\ all_answered (trace rejected) = true
      /\ failures (answered_items (trace rejected)) = 1%nat
      /\ out rejected
         = Raise (BulkIndexError
                    [[("index",
                       VDict [("_id", VStr "generated"); ("status", VInt 400);
                              ("error", VStr "mapper_parsing_exception")])]])
      /\ out rejected <> Return (VInt (3 - 1))
      /\ processed (trace rejected) = 2%nat
      /\ logged_failures (trace rejected) = 0%nat).
Proof.
  vm_compute. repeat split; discriminate.
Qed.

(** C6 as stated fails: an explicit argument that is the empty string is
    supplied and yet not used; the environment variable is. With an empty
    user argument the client even gets the authentication of the user of the
    environment. *)
Lemma create_es_client_ignores_empty_argument :
  let environ : gmap string string :=
    {[ "MM_ES_HOST" := "es.internal"; "MM_ES_USERNAME" := "bob" ]} in
  let es_client := create_es_client environ (Some EmptyString) (Some EmptyString)
                     (Some "secret") in
  hosts es_client <> resolve_as_stated (Some EmptyString) (environ !! "MM_ES_HOST")
  /\ hosts es_client = Some "es.internal"
  /\ resolve_as_stated (Some EmptyString) (environ !! "MM_ES_USERNAME")
     = Some EmptyString
  /\ http_auth es_client = Some (Some "bob", Some "secret").
Proof.
  vm_compute. repeat split. discriminate.
Qed.
